(** * applespi: keyboard and touchpad frames of the MacBook SPI controller

    A shallow embedding of [applespi.c].  The driver pulls one 256-byte
    packet per poll from the SPI bus, looks at its 16-bit type tag and
    turns it into calls on the kernel's input core: key reports for a
    keyboard packet, multitouch slot reports for a touchpad packet.

    The model keeps the driver's own data ([struct applespi_data], the two
    packet layouts, the two key tables) and records every call the driver
    makes on the input core as a trace.  The input core and the SPI core
    are kernel code; they appear here only at their call boundary. *)

From Stdlib Require Import ZArith List Bool Lia.
From Stdlib Require Import Strings.Byte.
From stdpp Require Import base list.
Import ListNotations.

Local Open Scope Z_scope.

(** ** Constants *)

Definition APPLESPI_PACKET_SIZE : Z := 256.

Definition PACKET_KEYBOARD : Z := 288.
Definition PACKET_TOUCHPAD : Z := 544.
Definition PACKET_NOTHING : Z := 53312.

Definition MAX_ROLLOVER : nat := 6.

Definition MAX_FINGERS : nat := 6.
Definition MAX_FINGER_ORIENTATION : Z := 16384.

Definition X_MIN : Z := -4828.
Definition X_MAX : Z := 5345.

Definition Y_MIN : Z := -203.
Definition Y_MAX : Z := 6803.

(** ** Key codes

    The [KEY_*] and [BTN_*] names come from the kernel's input event codes
    header, which is not part of the driver.  They are kept symbolic; a
    literal [0] in one of the driver's tables is [KEY_RESERVED]. *)

Inductive keycode : Set :=
| KEY_RESERVED
| KEY_A | KEY_B | KEY_C | KEY_D | KEY_E | KEY_F | KEY_G | KEY_H | KEY_I
| KEY_J | KEY_K | KEY_L | KEY_M | KEY_N | KEY_O | KEY_P | KEY_Q | KEY_R
| KEY_S | KEY_T | KEY_U | KEY_V | KEY_W | KEY_X | KEY_Y | KEY_Z
| KEY_1 | KEY_2 | KEY_3 | KEY_4 | KEY_5 | KEY_6 | KEY_7 | KEY_8 | KEY_9
| KEY_0
| KEY_ENTER | KEY_ESC | KEY_BACKSPACE | KEY_TAB | KEY_SPACE | KEY_MINUS
| KEY_EQUAL | KEY_LEFTBRACE | KEY_RIGHTBRACE | KEY_BACKSLASH
| KEY_SEMICOLON | KEY_APOSTROPHE | KEY_GRAVE | KEY_COMMA | KEY_DOT
| KEY_SLASH | KEY_CAPSLOCK
| KEY_F1 | KEY_F2 | KEY_F3 | KEY_F4 | KEY_F5 | KEY_F6 | KEY_F7 | KEY_F8
| KEY_F9 | KEY_F10 | KEY_F11 | KEY_F12
| KEY_RIGHT | KEY_LEFT | KEY_DOWN | KEY_UP
| KEY_LEFTCTRL | KEY_LEFTSHIFT | KEY_LEFTALT | KEY_LEFTMETA
| KEY_RIGHTSHIFT | KEY_RIGHTALT | KEY_RIGHTMETA
| BTN_LEFT.

Definition applespi_scancodes : list keycode := [
  KEY_RESERVED; KEY_RESERVED; KEY_RESERVED; KEY_RESERVED;
  KEY_A; KEY_B; KEY_C; KEY_D; KEY_E; KEY_F; KEY_G; KEY_H; KEY_I; KEY_J;
  KEY_K; KEY_L; KEY_M; KEY_N; KEY_O; KEY_P; KEY_Q; KEY_R; KEY_S; KEY_T;
  KEY_U; KEY_V; KEY_W; KEY_X; KEY_Y; KEY_Z;
  KEY_1; KEY_2; KEY_3; KEY_4; KEY_5; KEY_6; KEY_7; KEY_8; KEY_9; KEY_0;
  KEY_ENTER; KEY_ESC; KEY_BACKSPACE; KEY_TAB; KEY_SPACE; KEY_MINUS;
  KEY_EQUAL; KEY_LEFTBRACE; KEY_RIGHTBRACE; KEY_BACKSLASH; KEY_RESERVED;
  KEY_SEMICOLON; KEY_APOSTROPHE; KEY_GRAVE; KEY_COMMA; KEY_DOT; KEY_SLASH;
  KEY_CAPSLOCK;
  KEY_F1; KEY_F2; KEY_F3; KEY_F4; KEY_F5; KEY_F6; KEY_F7; KEY_F8; KEY_F9;
  KEY_F10; KEY_F11; KEY_F12; KEY_RESERVED; KEY_RESERVED; KEY_RESERVED;
  KEY_RESERVED; KEY_RESERVED; KEY_RESERVED; KEY_RESERVED; KEY_RESERVED;
  KEY_RESERVED;
  KEY_RIGHT; KEY_LEFT; KEY_DOWN; KEY_UP
].

Definition applespi_controlcodes : list keycode := [
  KEY_LEFTCTRL;
  KEY_LEFTSHIFT;
  KEY_LEFTALT;
  KEY_LEFTMETA;
  KEY_RESERVED;
  KEY_RIGHTSHIFT;
  KEY_RIGHTALT;
  KEY_RIGHTMETA
].

(** [sizeof(t)] of a table of [unsigned char]. *)
Definition sizeof (t : list keycode) : Z := Z.of_nat (length t).

(** ** Packets

    The receive buffer is a list of bytes.  A field of a packed struct laid
    over it is read at its byte offset; the driver only ever reads below
    [APPLESPI_PACKET_SIZE], the size both buffers are allocated with. *)

Definition u8_at (buf : list byte) (off : nat) : Z :=
  match buf !! off with
  | Some b => Z.of_N (Byte.to_N b)
  | None => 0
  end.

(** A 16-bit field, low byte first. *)
Definition u16_at (buf : list byte) (off : nat) : Z :=
  u8_at buf off + 256 * u8_at buf (off + 1).

Record keyboard_protocol := {
  kbd_packet_type : Z;            (* u16, offset 0  *)
  kbd_counter : Z;                (* u8,  offset 11 *)
  kbd_modifiers : Z;              (* u8,  offset 17 *)
  kbd_keys_pressed : list Z;      (* u8[6], offset 19 *)
  kbd_fn_pressed : Z;             (* u8,  offset 25 *)
  kbd_crc_16 : Z                  (* u16, offset 26 *)
}.

(** [memcpy(&keyboard_protocol, applespi->rx_buffer, APPLESPI_PACKET_SIZE)] *)
Definition read_keyboard_protocol (buf : list byte) : keyboard_protocol := {|
  kbd_packet_type := u16_at buf 0;
  kbd_counter := u8_at buf 11;
  kbd_modifiers := u8_at buf 17;
  kbd_keys_pressed := map (fun i => u8_at buf (19 + i)) (seq 0 6);
  kbd_fn_pressed := u8_at buf 25;
  kbd_crc_16 := u16_at buf 26
|}.

(** trackpad finger structure, le16-aligned: 30 bytes *)
Record tp_finger := {
  origin : Z;
  abs_x : Z;
  abs_y : Z;
  rel_x : Z;
  rel_y : Z;
  tool_major : Z;
  tool_minor : Z;
  orientation : Z;
  touch_major : Z;
  touch_minor : Z;
  pressure : Z;
  multi : Z
}.

Definition sizeof_tp_finger : nat := 30.

Definition read_tp_finger (buf : list byte) (base : nat) : tp_finger := {|
  origin := u16_at buf base;
  abs_x := u16_at buf (base + 2);
  abs_y := u16_at buf (base + 4);
  rel_x := u16_at buf (base + 6);
  rel_y := u16_at buf (base + 8);
  tool_major := u16_at buf (base + 10);
  tool_minor := u16_at buf (base + 12);
  orientation := u16_at buf (base + 14);
  touch_major := u16_at buf (base + 16);
  touch_minor := u16_at buf (base + 18);
  pressure := u16_at buf (base + 24);
  multi := u16_at buf (base + 26)
|}.

Record touchpad_protocol := {
  tp_packet_type : Z;             (* u16, offset 0  *)
  tp_number_of_fingers : Z;       (* u8,  offset 6  *)
  tp_counter : Z;                 (* u8,  offset 11 *)
  tp_number_of_fingers2 : Z;      (* u8,  offset 14 *)
  tp_clicked : Z;                 (* u8,  offset 17 *)
  tp_rel_x : Z;                   (* u8,  offset 18 *)
  tp_rel_y : Z;                   (* u8,  offset 19 *)
  tp_fingers : list tp_finger     (* [MAX_FINGERS], offset 64 *)
}.

Definition fingers_offset : nat := 64.

(** [(struct touchpad_protocol* )&keyboard_protocol] *)
Definition read_touchpad_protocol (buf : list byte) : touchpad_protocol := {|
  tp_packet_type := u16_at buf 0;
  tp_number_of_fingers := u8_at buf 6;
  tp_counter := u8_at buf 11;
  tp_number_of_fingers2 := u8_at buf 14;
  tp_clicked := u8_at buf 17;
  tp_rel_x := u8_at buf 18;
  tp_rel_y := u8_at buf 19;
  tp_fingers :=
    map (fun i => read_tp_finger buf (fingers_offset + sizeof_tp_finger * i))
        (seq 0 MAX_FINGERS)
|}.

(** convert 16-bit little endian to signed integer *)
Definition raw2int (x : Z) : Z :=
  if 32768 <=? x then x - 65536 else x.

(** ** Calls on the input core

    Every call the driver makes on one of its two input devices, in program
    order. *)

Inductive input_dev := poll_dev_input | touchpad_input_dev.

Inductive abs_axis :=
| ABS_MT_TOUCH_MAJOR | ABS_MT_TOUCH_MINOR
| ABS_MT_WIDTH_MAJOR | ABS_MT_WIDTH_MINOR
| ABS_MT_ORIENTATION
| ABS_MT_POSITION_X | ABS_MT_POSITION_Y
| ABS_MT_PRESSURE.

Inductive mt_tool := MT_TOOL_FINGER.

(** [struct input_mt_pos], two [s16] members in the input core's header. *)
Record input_mt_pos := { x : Z; y : Z }.

Inductive input_call :=
| input_report_key (dev : input_dev) (code : keycode) (value : Z)
| input_sync (dev : input_dev)
| input_mt_slot (dev : input_dev) (slot : Z)
| input_mt_report_slot_state (dev : input_dev) (tool : mt_tool) (active : bool)
| input_report_abs (dev : input_dev) (axis : abs_axis) (value : Z)
| input_mt_assign_slots (dev : input_dev) (pos : list input_mt_pos) (dmax : Z)
| input_mt_sync_frame (dev : input_dev).

(** ** Results

    Reading a table outside its bounds has no defined result in C; the model
    stops there and keeps the offending index.  Otherwise a computation
    returns a value together with the calls it made. *)

Inductive result (A : Type) : Type :=
| Ok (a : A) (trace : list input_call)
| Fault (index : Z).

Arguments Ok {A} a trace.
Arguments Fault {A} index.

#[global] Instance result_ret : MRet result := fun A a => Ok a [].

#[global] Instance result_bind : MBind result := fun A B f m =>
  match m with
  | Ok a t =>
      match f a with
      | Ok b t' => Ok b (t ++ t')
      | Fault i => Fault i
      end
  | Fault i => Fault i
  end.

Definition call (c : input_call) : result unit := Ok tt [c].

(** [t[i]] for a table of key codes. *)
Definition table_read (t : list keycode) (i : Z) : result keycode :=
  if (0 <=? i) && (i <? sizeof t) then
    match t !! Z.to_nat i with
    | Some c => mret c
    | None => Fault i
    end
  else Fault i.

(** [for (i = 0; i < n; i++) body] *)
Fixpoint for_each (l : list nat) (body : nat -> result unit) : result unit :=
  match l with
  | [] => mret tt
  | i :: l' => body i;; for_each l' body
  end.

Definition for_range (n : nat) (body : nat -> result unit) : result unit :=
  for_each (seq 0 n) body.

(** ** Driver state *)

Record applespi_data := {
  tx_buffer : list byte;
  rx_buffer : list byte;
  last_keys_pressed : list Z;        (* u8[MAX_ROLLOVER] *)
  pos : list input_mt_pos;           (* [MAX_FINGERS] *)
  slots : list Z                     (* int[MAX_FINGERS] *)
}.

(** [a[i]] for one of the driver's own fixed-size arrays. *)
Definition array_get (a : list Z) (i : nat) : Z := nth i a 0.

(** ** Keyboard packets *)

(** The inner loop over [j]: does [k] occur among the six new codes? *)
Definition still_pressed (k : Z) (keys_pressed : list Z) : bool :=
  existsb (fun j => k =? array_get keys_pressed j) (seq 0 6).

(** First loop of the keyboard branch: keys that went away. *)
Definition report_released (last keys_pressed : list Z) : result unit :=
  for_range 6 (fun i =>
    if negb (still_pressed (array_get last i) keys_pressed) then
      c ← table_read applespi_scancodes (array_get last i);
      call (input_report_key poll_dev_input c 0)
    else mret tt).

(** Second loop: keys that are down. *)
Definition report_pressed (keys_pressed : list Z) : result unit :=
  for_range 6 (fun i =>
    if (array_get keys_pressed i <? sizeof applespi_scancodes)
       && (0 <? array_get keys_pressed i) then
      c ← table_read applespi_scancodes (array_get keys_pressed i);
      call (input_report_key poll_dev_input c 1)
    else mret tt).

(** Third loop: "Check control keys". *)
Definition report_modifiers (modifiers : Z) : result unit :=
  for_range 8 (fun i =>
    c ← table_read applespi_controlcodes (Z.of_nat i);
    if Z.testbit modifiers (Z.of_nat i) then
      call (input_report_key poll_dev_input c 1)
    else
      call (input_report_key poll_dev_input c 0)).

Definition set_last_keys_pressed (st : applespi_data) (keys : list Z)
  : applespi_data := {|
  tx_buffer := tx_buffer st;
  rx_buffer := rx_buffer st;
  last_keys_pressed := keys;
  pos := pos st;
  slots := slots st
|}.

(** The [PACKET_KEYBOARD] branch of [applespi_got_data]: the three loops,
    [input_sync], and the copy of the new codes over the old ones. *)
Definition got_keyboard (st : applespi_data) (k : keyboard_protocol)
  : result applespi_data :=
  report_released (last_keys_pressed st) (kbd_keys_pressed k);;
  report_pressed (kbd_keys_pressed k);;
  report_modifiers (kbd_modifiers k);;
  call (input_sync poll_dev_input);;
  mret (set_last_keys_pressed st (kbd_keys_pressed k)).

(** ** Touchpad packets *)

(** A store to an [s16] member keeps the low 16 bits. *)
Definition to_s16 (v : Z) : Z := raw2int (v mod 65536).

Definition zero_finger : tp_finger := {|
  origin := 0; abs_x := 0; abs_y := 0; rel_x := 0; rel_y := 0;
  tool_major := 0; tool_minor := 0; orientation := 0;
  touch_major := 0; touch_minor := 0; pressure := 0; multi := 0
|}.

(** [&t->fingers[i]] *)
Definition finger_at (t : touchpad_protocol) (i : nat) : tp_finger :=
  nth i (tp_fingers t) zero_finger.

Definition pos_at (a : list input_mt_pos) (i : nat) : input_mt_pos :=
  nth i a {| x := 0; y := 0 |}.

(** The position the first loop of [report_tp_state] stores for a finger. *)
Definition finger_pos (f : tp_finger) : input_mt_pos := {|
  x := to_s16 (raw2int (abs_x f));
  y := to_s16 (Y_MIN + Y_MAX - raw2int (abs_y f))
|}.

(** One round of the first loop: skip a finger whose [touch_major] is zero,
    else store its position in [pos[n]] and count it. *)
Definition gather_step (t : touchpad_protocol)
    (acc : list input_mt_pos * nat) (i : nat) : list input_mt_pos * nat :=
  let f := finger_at t i in
  if raw2int (touch_major f) =? 0 then acc
  else (<[snd acc := finger_pos f]> (fst acc), S (snd acc)).

Definition gather_positions (t : touchpad_protocol) (pos0 : list input_mt_pos)
  : list input_mt_pos * nat :=
  fold_left (gather_step t) (seq 0 MAX_FINGERS) (pos0, 0%nat).

Definition report_finger_data (input : input_dev) (slot : Z)
    (p : input_mt_pos) (f : tp_finger) : result unit :=
  call (input_mt_slot input slot);;
  call (input_mt_report_slot_state input MT_TOOL_FINGER true);;
  call (input_report_abs input ABS_MT_TOUCH_MAJOR
          (Z.shiftl (raw2int (touch_major f)) 1));;
  call (input_report_abs input ABS_MT_TOUCH_MINOR
          (Z.shiftl (raw2int (touch_minor f)) 1));;
  call (input_report_abs input ABS_MT_WIDTH_MAJOR
          (Z.shiftl (raw2int (tool_major f)) 1));;
  call (input_report_abs input ABS_MT_WIDTH_MINOR
          (Z.shiftl (raw2int (tool_minor f)) 1));;
  call (input_report_abs input ABS_MT_ORIENTATION
          (MAX_FINGER_ORIENTATION - raw2int (orientation f)));;
  call (input_report_abs input ABS_MT_POSITION_X (x p));;
  call (input_report_abs input ABS_MT_POSITION_Y (y p)).

Definition set_touch (st : applespi_data) (pos' : list input_mt_pos)
    (slots' : list Z) : applespi_data := {|
  tx_buffer := tx_buffer st;
  rx_buffer := rx_buffer st;
  last_keys_pressed := last_keys_pressed st;
  pos := pos';
  slots := slots'
|}.

Section InputCore.

(** The kernel's [input_mt_assign_slots] fills [slots[0 .. num_pos-1]]
    from the positions it is given and from contacts it remembers itself.
    Its choice is not the driver's: [mt_assign ps i] stands for the slot it
    writes to [slots[i]] when handed the positions [ps]. *)
Variable mt_assign : list input_mt_pos -> nat -> Z.

Definition store_slots (slots0 : list Z) (ps : list input_mt_pos) : list Z :=
  map (mt_assign ps) (seq 0 (length ps)) ++ drop (length ps) slots0.

Definition report_tp_state (st : applespi_data) (t : touchpad_protocol)
  : result applespi_data :=
  let input := touchpad_input_dev in
  let pos' := fst (gather_positions t (pos st)) in
  let n := snd (gather_positions t (pos st)) in
  let slots' := store_slots (slots st) (take n pos') in
  call (input_mt_assign_slots input (take n pos') 0);;
  for_range n (fun i =>
    report_finger_data input (array_get slots' i) (pos_at pos' i)
                       (finger_at t i));;
  call (input_mt_sync_frame input);;
  call (input_report_key input BTN_LEFT (tp_clicked t));;
  call (input_sync input);;
  mret (set_touch st pos' slots').

(** ** One received packet *)

Definition applespi_got_data (st : applespi_data) : result applespi_data :=
  let keyboard_protocol := read_keyboard_protocol (rx_buffer st) in
  if kbd_packet_type keyboard_protocol =? PACKET_NOTHING then
    mret st
  else if kbd_packet_type keyboard_protocol =? PACKET_KEYBOARD then
    got_keyboard st keyboard_protocol
  else if kbd_packet_type keyboard_protocol =? PACKET_TOUCHPAD then
    report_tp_state st (read_touchpad_protocol (rx_buffer st))
  else
    mret st.

End InputCore.

(** ** SPI messages

    A transfer names the buffer it sends from or receives into; a message
    is the list of transfers queued with [spi_message_add_tail] and handed
    to [spi_sync] as one unit. *)

Inductive buffer := The_tx_buffer | The_rx_buffer.

Record spi_transfer := {
  tx_buf : option buffer;
  rx_buf : option buffer;
  len : nat;
  cs_change : bool;
  speed_hz : Z
}.

Definition spi_message := list spi_transfer.

Definition write_and_response_message : spi_message :=
  let t1 := {| tx_buf := Some The_tx_buffer; rx_buf := None;
               len := Z.to_nat APPLESPI_PACKET_SIZE;
               cs_change := true; speed_hz := 400000 |} in
  let t2 := {| tx_buf := None; rx_buf := Some The_rx_buffer;
               len := 4%nat;
               cs_change := true; speed_hz := 400000 |} in
  let t3 := {| tx_buf := None; rx_buf := Some The_rx_buffer;
               len := Z.to_nat APPLESPI_PACKET_SIZE;
               cs_change := false; speed_hz := 400000 |} in
  [] ++ [t1] ++ [t2] ++ [t3].

Definition read_message : spi_message :=
  let t := {| tx_buf := None; rx_buf := Some The_rx_buffer;
              len := Z.to_nat APPLESPI_PACKET_SIZE;
              cs_change := false; speed_hz := 400000 |} in
  [] ++ [t].

(** What one transfer puts on the bus. *)
Inductive phase :=
| Transmit (data : list byte)
| Receive (count : nat)
| Idle.

Definition phase_of (st : applespi_data) (t : spi_transfer) : phase :=
  match tx_buf t, rx_buf t with
  | Some The_tx_buffer, _ => Transmit (take (len t) (tx_buffer st))
  | Some The_rx_buffer, _ => Transmit (take (len t) (rx_buffer st))
  | None, Some _ => Receive (len t)
  | None, None => Idle
  end.

Definition set_buffer (st : applespi_data) (b : buffer) (data : list byte)
  : applespi_data :=
  match b with
  | The_tx_buffer => {|
      tx_buffer := data; rx_buffer := rx_buffer st;
      last_keys_pressed := last_keys_pressed st;
      pos := pos st; slots := slots st |}
  | The_rx_buffer => {|
      tx_buffer := tx_buffer st; rx_buffer := data;
      last_keys_pressed := last_keys_pressed st;
      pos := pos st; slots := slots st |}
  end.

Definition get_buffer (st : applespi_data) (b : buffer) : list byte :=
  match b with
  | The_tx_buffer => tx_buffer st
  | The_rx_buffer => rx_buffer st
  end.

(** A completed transfer: the [len] bytes the device clocked out land at the
    start of the receive buffer. *)
Definition run_transfer (st : applespi_data) (t : spi_transfer)
    (reply : list byte) : applespi_data :=
  match rx_buf t with
  | Some b => set_buffer st b (take (len t) reply ++ drop (len t) (get_buffer st b))
  | None => st
  end.

(** [spi_sync] on a message that completes: the transfers run in queue
    order, each with the bytes the device answers it with. *)
Fixpoint spi_sync (st : applespi_data) (m : spi_message)
    (replies : list (list byte)) : applespi_data * list phase :=
  match m with
  | [] => (st, [])
  | t :: m' =>
      let st' := run_transfer st t (hd [] replies) in
      let r := spi_sync st' m' (tl replies) in
      (fst r, phase_of st t :: snd r)
  end.

(** What a synchronous message leaves behind: the driver data with its
    buffers, what went over the bus, and the value returned. *)
Record sync_outcome := {
  after : applespi_data;
  on_the_bus : list phase;
  status : Z
}.

(** [applespi_sync]: [spi_sync], and when that returns 0 the status is
    [message->actual_length], the bytes of all transfers. *)
Definition applespi_sync (st : applespi_data) (message : spi_message)
    (replies : list (list byte)) : sync_outcome := {|
  after := fst (spi_sync st message replies);
  on_the_bus := snd (spi_sync st message replies);
  status := Z.of_nat (list_sum (map len message))
|}.

Definition applespi_sync_write_and_response (st : applespi_data)
    (replies : list (list byte)) : sync_outcome :=
  applespi_sync st write_and_response_message replies.

Definition applespi_sync_read (st : applespi_data)
    (replies : list (list byte)) : sync_outcome :=
  applespi_sync st read_message replies.

(** [applespi_poll]: one read, then the packet is processed.  The status
    [applespi_sync_read] returns is not looked at. *)
Definition applespi_poll (mt_assign : list input_mt_pos -> nat -> Z)
    (st : applespi_data) (reply : list byte) : result applespi_data :=
  applespi_got_data mt_assign (after (applespi_sync_read st [reply])).

(** The polled device calls [applespi_poll] once per interval; [packets]
    are the replies of the device, oldest first. *)
Fixpoint applespi_polls (mt_assign : list input_mt_pos -> nat -> Z)
    (st : applespi_data) (packets : list (list byte)) : result applespi_data :=
  match packets with
  | [] => mret st
  | packet :: packets' =>
      st' ← applespi_poll mt_assign st packet;
      applespi_polls mt_assign st' packets'
  end.

(** Every buffer and array has the size it is allocated or declared with. *)
Definition sized (st : applespi_data) : Prop :=
  length (tx_buffer st) = Z.to_nat APPLESPI_PACKET_SIZE
  /\ length (rx_buffer st) = Z.to_nat APPLESPI_PACKET_SIZE
  /\ length (last_keys_pressed st) = MAX_ROLLOVER
  /\ length (pos st) = MAX_FINGERS
  /\ length (slots st) = MAX_FINGERS.

(** [devm_kzalloc]: the driver data starts zeroed.  The two buffers come
    from [devm_kmalloc]; [tx] and [rx] are whatever they hold at first. *)
Definition probed_state (tx rx : list byte) : applespi_data := {|
  tx_buffer := tx;
  rx_buffer := rx;
  last_keys_pressed := repeat 0 MAX_ROLLOVER;
  pos := repeat {| x := 0; y := 0 |} MAX_FINGERS;
  slots := repeat 0 MAX_FINGERS
|}.

(** ** Packets for examples

    Encoders for the two layouts, the inverse of the reads above; they
    build the concrete buffers the examples run on. *)

Definition byte_of (v : Z) : byte :=
  match Byte.of_N (Z.to_N (v mod 256)) with
  | Some b => b
  | None => x00
  end.

Definition le16_bytes (v : Z) : list byte := [byte_of v; byte_of (v / 256)].

Definition pad (n : nat) : list byte := repeat x00 n.

Definition keyboard_packet (modifiers : Z) (keys : list Z) : list byte :=
  le16_bytes PACKET_KEYBOARD ++ pad 9 ++ [x00] ++ pad 5
  ++ [byte_of modifiers] ++ pad 1
  ++ map byte_of keys ++ [x00] ++ le16_bytes 0 ++ pad 228.

Definition finger_bytes (f : tp_finger) : list byte :=
  le16_bytes (origin f) ++ le16_bytes (abs_x f) ++ le16_bytes (abs_y f)
  ++ le16_bytes (rel_x f) ++ le16_bytes (rel_y f)
  ++ le16_bytes (tool_major f) ++ le16_bytes (tool_minor f)
  ++ le16_bytes (orientation f)
  ++ le16_bytes (touch_major f) ++ le16_bytes (touch_minor f)
  ++ pad 4 ++ le16_bytes (pressure f) ++ le16_bytes (multi f) ++ pad 2.

Definition touchpad_packet (clicked : Z) (fingers : list tp_finger)
  : list byte :=
  le16_bytes PACKET_TOUCHPAD ++ pad 4 ++ [byte_of (Z.of_nat (length fingers))]
  ++ pad 4 ++ [x00] ++ pad 2 ++ [byte_of (Z.of_nat (length fingers))]
  ++ pad 2 ++ [byte_of clicked] ++ pad 2 ++ pad 44
  ++ concat (map finger_bytes fingers) ++ pad 12.

Definition tagged_packet (tag : Z) : list byte :=
  le16_bytes tag ++ pad 254.

(** A stand-in for the input core in closed examples: position [i] gets
    slot [i]. *)
Definition slot_per_index : list input_mt_pos -> nat -> Z :=
  fun _ i => Z.of_nat i.

(** The driver data a moment into its life: [keys] were stored by the last
    keyboard packet and [packet] has just been received. *)
Definition with_last_keys (keys : list Z) (packet : list byte)
  : applespi_data :=
  set_buffer (set_last_keys_pressed (probed_state (pad 256) (pad 256)) keys)
             The_rx_buffer packet.

(** ** What a result says *)

Definition trace_of {A} (r : result A) : list input_call :=
  match r with
  | Ok _ t => t
  | Fault _ => []
  end.

(** The six entries a loop over [i < 6] reads from an array. *)
Definition six (a : list Z) : list Z := map (array_get a) (seq 0 6).

(** The key a raw code stands for, for codes inside the table. *)
Definition keycode_of (c : Z) : keycode :=
  nth (Z.to_nat c) applespi_scancodes KEY_RESERVED.

Definition in_table (c : Z) : bool :=
  (0 <=? c) && (c <? sizeof applespi_scancodes).

(** Every table read of the release loop is inside [applespi_scancodes]:
    each old code is still pressed or is a valid index. *)
Definition release_reads_in_table (last keys : list Z) : bool :=
  forallb (fun c => still_pressed c keys || in_table c) (six last).

Definition release (c : Z) : input_call :=
  input_report_key poll_dev_input (keycode_of c) 0.

Definition press (c : Z) : input_call :=
  input_report_key poll_dev_input (keycode_of c) 1.

(** ** Touch samples *)

(** A sample the first loop of [report_tp_state] does not skip. *)
Definition active (f : tp_finger) : bool := negb (raw2int (touch_major f) =? 0).

(** The six samples of a packet, in slot order. *)
Definition samples (t : touchpad_protocol) : list tp_finger :=
  map (finger_at t) (seq 0 MAX_FINGERS).

(** The positions of the active samples, in slot order. *)
Definition tracked (t : touchpad_protocol) : list input_mt_pos :=
  map finger_pos (List.filter active (samples t)).

(** The nine calls of one [report_finger_data]. *)
Definition contact_calls (input : input_dev) (slot : Z) (p : input_mt_pos)
    (f : tp_finger) : list input_call := [
  input_mt_slot input slot;
  input_mt_report_slot_state input MT_TOOL_FINGER true;
  input_report_abs input ABS_MT_TOUCH_MAJOR (Z.shiftl (raw2int (touch_major f)) 1);
  input_report_abs input ABS_MT_TOUCH_MINOR (Z.shiftl (raw2int (touch_minor f)) 1);
  input_report_abs input ABS_MT_WIDTH_MAJOR (Z.shiftl (raw2int (tool_major f)) 1);
  input_report_abs input ABS_MT_WIDTH_MINOR (Z.shiftl (raw2int (tool_minor f)) 1);
  input_report_abs input ABS_MT_ORIENTATION
    (MAX_FINGER_ORIENTATION - raw2int (orientation f));
  input_report_abs input ABS_MT_POSITION_X (x p);
  input_report_abs input ABS_MT_POSITION_Y (y p)
].

(** A contact update whose every value is taken from the one sample [f]. *)
Definition contact_update (slot : Z) (f : tp_finger) : list input_call :=
  contact_calls touchpad_input_dev slot (finger_pos f) f.

(** No inactive sample comes before an active one. *)
Fixpoint leading_active (fs : list tp_finger) : bool :=
  match fs with
  | [] => true
  | f :: fs' =>
      if active f then leading_active fs'
      else forallb (fun g => negb (active g)) fs'
  end.

(** The calls of one touchpad packet, written from the packet alone: the
    positions handed to the input core, one group of nine calls per tracked
    position, the frame marker, the button and the final sync. *)
Definition touch_calls (mt_assign : list input_mt_pos -> nat -> Z)
    (t : touchpad_protocol) : list input_call :=
  input_mt_assign_slots touchpad_input_dev (tracked t) 0
  :: flat_map (fun i =>
       contact_calls touchpad_input_dev (mt_assign (tracked t) i)
                     (pos_at (tracked t) i) (finger_at t i))
       (seq 0 (length (tracked t)))
  ++ [input_mt_sync_frame touchpad_input_dev;
      input_report_key touchpad_input_dev BTN_LEFT (tp_clicked t);
      input_sync touchpad_input_dev].

(** ** The policies in the words of the specification

    Stated for comparison with the loops above. *)

(** Codes to press: each nonzero code of the snapshot that is nowhere in the
    previous array, once however many slots hold it. *)
Definition spec_pressed (last keys : list Z) : list Z :=
  nodup Z.eq_dec
    (List.filter (fun c => negb (c =? 0) && negb (existsb (Z.eqb c) last))
                 keys).

(** Modifier events: a press for a bit that is set now and was clear before,
    a release for a bit that was set before and is clear now, nothing for a
    bit that has not changed. *)
Definition spec_modifier_reports (previous modifiers : Z) : list input_call :=
  flat_map
    (fun i =>
       let c := nth i applespi_controlcodes KEY_RESERVED in
       match Z.testbit previous (Z.of_nat i), Z.testbit modifiers (Z.of_nat i)
       with
       | false, true => [input_report_key poll_dev_input c 1]
       | true, false => [input_report_key poll_dev_input c 0]
       | _, _ => []
       end)
    (seq 0 8).

(** ** Concrete states and packets used below *)

Definition blank : list byte := pad 256.

(** The eight reports of the third loop when no modifier bit is set. *)
Definition idle_modifiers : list input_call :=
  map (fun c => input_report_key poll_dev_input c 0) applespi_controlcodes.

(** Codes [4; 4] are down and the packet in the buffer says so again. *)
Definition held_twice : applespi_data :=
  with_last_keys [4; 4; 0; 0; 0; 0] (keyboard_packet 0 [4; 4; 0; 0; 0; 0]).

(** Code 4 is down; the packet adds code 7. *)
Definition adds_seven : applespi_data :=
  with_last_keys [4; 0; 0; 0; 0; 0] (keyboard_packet 0 [4; 7; 0; 0; 0; 0]).

(** Codes 4 and 5 are down; the packet has no key. *)
Definition drops_two : applespi_data :=
  with_last_keys [4; 5; 0; 0; 0; 0] (keyboard_packet 0 [0; 0; 0; 0; 0; 0]).

(** Six keys are down; the packet has no key. *)
Definition drops_six : applespi_data :=
  with_last_keys [9; 8; 7; 6; 5; 4] (keyboard_packet 0 [0; 0; 0; 0; 0; 0]).

(** Code 200, no index of the 83-entry table, was stored by the last
    keyboard packet. *)
Definition stored_200 : applespi_data :=
  with_last_keys [200; 0; 0; 0; 0; 0] (keyboard_packet 0 [200; 0; 0; 0; 0; 0]).

(** Left shift (bit 1) is down and no key; the packet in the buffer has
    already been processed once. *)
Definition shift_held : applespi_data :=
  with_last_keys [0; 0; 0; 0; 0; 0] (keyboard_packet 2 [0; 0; 0; 0; 0; 0]).

(** A touching finger at raw position [(ax, ay)]. *)
Definition sample (ax ay : Z) : tp_finger := {|
  origin := 1; abs_x := ax; abs_y := ay; rel_x := 0; rel_y := 0;
  tool_major := 60; tool_minor := 55; orientation := 1000;
  touch_major := 50; touch_minor := 40; pressure := 30; multi := 0
|}.

(** Code 4 is down; a touchpad packet arrives whose only touching finger is
    in the second slot. *)
Definition touch_second_slot : applespi_data :=
  with_last_keys [4; 0; 0; 0; 0; 0]
    (touchpad_packet 0
       [zero_finger; sample 100 200; zero_finger; zero_finger; zero_finger;
        zero_finger]).

(** Two touching fingers in the first two slots, button down. *)
Definition touch_leading : applespi_data :=
  with_last_keys [0; 0; 0; 0; 0; 0]
    (touchpad_packet 1
       [sample 100 200; sample 300 400; zero_finger; zero_finger; zero_finger;
        zero_finger]).

(** Two touching fingers, in the second and the fifth slot, button down. *)
Definition touch_two_of_six : applespi_data :=
  with_last_keys [0; 0; 0; 0; 0; 0]
    (touchpad_packet 1
       [zero_finger; sample 100 200; zero_finger; zero_finger;
        sample 65436 300; zero_finger]).

(** Code 4 is down; a packet tagged [PACKET_NOTHING] arrives. *)
Definition nothing_new : applespi_data :=
  with_last_keys [4; 0; 0; 0; 0; 0] (tagged_packet PACKET_NOTHING).

(** [touch_two_of_six] with other contents in the transmit buffer and in
    the two scratch arrays of the touchpad branch. *)
Definition touch_two_of_six_other : applespi_data := {|
  tx_buffer := keyboard_packet 0 [1; 2; 3; 4; 5; 6];
  rx_buffer := rx_buffer touch_two_of_six;
  last_keys_pressed := last_keys_pressed touch_two_of_six;
  pos := repeat {| x := 7; y := 7 |} MAX_FINGERS;
  slots := [5; 4; 3; 2; 1; 0]
|}.

Definition is_assign_call (c : input_call) : bool :=
  match c with
  | input_mt_assign_slots _ _ _ => true
  | _ => false
  end.

(** ** Session start

    [applespi_init_commands]: fourteen commands of 256 bytes each.  In every
    one of them bytes 22 to 253 are zero; they are written [pad 232]. *)

Definition applespi_init_commands : list (list byte) := [
  [x40; xd0; x00; x00; x00; x00; x0a; x00; x20; x01; xd0;
   x00; x00; x04; x00; x00; x40; x89; x00; x00; x00; x00]
  ++ pad 232 ++ [xd0; x62];
  [x40; xd0; x00; x00; x00; x00; x0a; x00; x20; x02; x00;
   x00; x00; x04; x00; x00; x60; x19; x00; x00; x00; x00]
  ++ pad 232 ++ [xd0; x62];
  [x40; xd0; x00; x00; x00; x00; x0a; x00; x20; x02; x01;
   x00; x00; x04; x00; x00; x61; xc8; x00; x00; x00; x00]
  ++ pad 232 ++ [xd0; x62];
  [x40; xd0; x00; x00; x00; x00; x0a; x00; x20; x02; x02;
   x00; x00; x04; x00; x00; x61; xfb; x00; x00; x00; x00]
  ++ pad 232 ++ [xd0; x62];
  [x40; xd0; x00; x00; x00; x00; x0a; x00; x20; x02; x03;
   x00; x00; x04; x00; x00; x60; x2a; x00; x00; x00; x00]
  ++ pad 232 ++ [xd0; x62];
  [x40; xd0; x00; x00; x00; x00; x0a; x00; x20; x02; x04;
   x00; x00; x04; x00; x00; x61; x9d; x00; x00; x00; x00]
  ++ pad 232 ++ [xd0; x62];
  [x40; x01; x00; x00; x00; x00; x0a; x00; x32; xbf; x00;
   x00; x08; x00; x00; x00; xce; x66; x00; x00; x00; x00]
  ++ pad 232 ++ [x2d; xff];
  [x40; x01; x00; x00; x00; x00; x0a; x00; x32; x02; x00;
   x01; x1e; x00; x00; x00; x9a; xe5; x00; x00; x00; x00]
  ++ pad 232 ++ [x2d; xff];
  [x40; x01; x00; x00; x00; x00; x0e; x00; x52; x09; x00;
   x02; x04; x00; x04; x00; x09; x00; x00; x00; x0d; x10]
  ++ pad 232 ++ [x5f; x19];
  [x40; xd0; x00; x00; x00; x00; x0a; x00; x20; x10; x01;
   x00; x00; x04; x00; x00; x53; xc9; x00; x00; x00; x00]
  ++ pad 232 ++ [xd0; x62];
  [x40; xd0; x00; x00; x00; x00; x0a; x00; x20; x10; x01;
   x00; x00; x04; x00; x00; x53; xc9; x00; x00; x00; x00]
  ++ pad 232 ++ [xd0; x62];
  [x40; x01; x00; x00; x00; x00; x0c; x00; x51; x01; x00;
   x03; x02; x00; x02; x00; x01; x00; x6d; xde; x00; x00]
  ++ pad 232 ++ [x66; x6a];
  [x40; x02; x00; x00; x00; x00; x0c; x00; x52; x02; x00;
   x00; x02; x00; x02; x00; x02; x01; x7b; x11; x00; x00]
  ++ pad 232 ++ [x23; xab];
  [x40; xd0; x00; x00; x00; x00; x0a; x00; x20; x10; x02;
   x00; x00; x04; x00; x00; x53; xfa; x00; x00; x00; x00]
  ++ pad 232 ++ [xd0; x62]
].

(** [memcpy(applespi->tx_buffer, src, 256)] *)
Definition memcpy_tx_buffer (st : applespi_data) (src : list byte)
  : applespi_data :=
  set_buffer st The_tx_buffer
    (take (Z.to_nat APPLESPI_PACKET_SIZE) src
     ++ drop (Z.to_nat APPLESPI_PACKET_SIZE) (tx_buffer st)).

(** The loop of [applespi_open] over a table of commands: copy a command
    into the transmit buffer, exchange, and go on without looking at the
    status or at what was received.  [replies] holds, for each exchange, the
    bytes the device answers its three transfers with. *)
Fixpoint open_loop (st : applespi_data) (commands : list (list byte))
    (replies : list (list (list byte))) : applespi_data * list (list phase) :=
  match commands with
  | [] => (st, [])
  | command :: commands' =>
      let o := applespi_sync_write_and_response
                 (memcpy_tx_buffer st command) (hd [] replies) in
      let r := open_loop (after o) commands' (tl replies) in
      (fst r, on_the_bus o :: snd r)
  end.

Definition applespi_open (st : applespi_data)
    (replies : list (list (list byte))) : applespi_data * list (list phase) :=
  open_loop st applespi_init_commands replies.

(** ** Set-up of the two input devices

    The parts of [applespi_probe] that say what the devices can report. *)

Inductive event_type := EV_KEY | EV_ABS.

Inductive setup_call :=
| input_set_capability (dev : input_dev) (type : event_type) (code : keycode)
| input_set_abs_params (dev : input_dev) (axis : abs_axis)
    (min max fuzz flat : Z).

(** [if (t[i])]: a table entry that is not 0. *)
Definition is_reserved (c : keycode) : bool :=
  match c with
  | KEY_RESERVED => true
  | _ => false
  end.

(** [for (i = 0; i < sizeof(t); i++) if (t[i]) input_set_capability(...)] *)
Definition set_table_capabilities (t : list keycode) : list setup_call :=
  flat_map
    (fun i =>
       if is_reserved (nth i t KEY_RESERVED) then []
       else [input_set_capability poll_dev_input EV_KEY
               (nth i t KEY_RESERVED)])
    (seq 0 (length t)).

(** The two capability loops of [applespi_probe]. *)
Definition probe_key_capabilities : list setup_call :=
  set_table_capabilities applespi_scancodes
  ++ set_table_capabilities applespi_controlcodes.

(** The axis ranges [applespi_probe] declares for the touchpad. *)
Definition probe_abs_params : list setup_call := [
  input_set_abs_params touchpad_input_dev ABS_MT_TOUCH_MAJOR 0 2048 0 0;
  input_set_abs_params touchpad_input_dev ABS_MT_TOUCH_MINOR 0 2048 0 0;
  input_set_abs_params touchpad_input_dev ABS_MT_WIDTH_MAJOR 0 2048 0 0;
  input_set_abs_params touchpad_input_dev ABS_MT_WIDTH_MINOR 0 2048 0 0;
  input_set_abs_params touchpad_input_dev ABS_MT_ORIENTATION
    (- MAX_FINGER_ORIENTATION) MAX_FINGER_ORIENTATION 0 0;
  input_set_abs_params touchpad_input_dev ABS_MT_POSITION_X X_MIN X_MAX 0 0;
  input_set_abs_params touchpad_input_dev ABS_MT_POSITION_Y Y_MIN Y_MAX 0 0
].

(** ** Reading traces *)

(** The device a call is made on. *)
Definition call_dev (c : input_call) : input_dev :=
  match c with
  | input_report_key dev _ _ => dev
  | input_sync dev => dev
  | input_mt_slot dev _ => dev
  | input_mt_report_slot_state dev _ _ => dev
  | input_report_abs dev _ _ => dev
  | input_mt_assign_slots dev _ _ => dev
  | input_mt_sync_frame dev => dev
  end.

Definition axis_eqb (a b : abs_axis) : bool :=
  match a, b with
  | ABS_MT_TOUCH_MAJOR, ABS_MT_TOUCH_MAJOR
  | ABS_MT_TOUCH_MINOR, ABS_MT_TOUCH_MINOR
  | ABS_MT_WIDTH_MAJOR, ABS_MT_WIDTH_MAJOR
  | ABS_MT_WIDTH_MINOR, ABS_MT_WIDTH_MINOR
  | ABS_MT_ORIENTATION, ABS_MT_ORIENTATION
  | ABS_MT_POSITION_X, ABS_MT_POSITION_X
  | ABS_MT_POSITION_Y, ABS_MT_POSITION_Y
  | ABS_MT_PRESSURE, ABS_MT_PRESSURE => true
  | _, _ => false
  end.

(** Is value [v] on [axis] inside a range some set-up call declared? *)
Definition in_declared_range (setup : list setup_call) (axis : abs_axis)
    (v : Z) : bool :=
  existsb
    (fun s =>
       match s with
       | input_set_abs_params _ a lo hi _ _ =>
           axis_eqb a axis && (lo <=? v) && (v <=? hi)
       | _ => false
       end)
    setup.

(** An axis report stays inside the range declared for its axis; other
    calls carry no axis value. *)
Definition within_declared (c : input_call) : bool :=
  match c with
  | input_report_abs _ axis v => in_declared_range probe_abs_params axis v
  | _ => true
  end.

(** Was key [c] announced by a set-up call? *)
Definition key_declared (setup : list setup_call) (c : keycode) : Prop :=
  In (input_set_capability poll_dev_input EV_KEY c) setup.

(** A key report names [KEY_RESERVED] or an announced key. *)
Definition key_report_announced (c : input_call) : Prop :=
  match c with
  | input_report_key _ code _ =>
      code = KEY_RESERVED \/ key_declared probe_key_capabilities code
  | _ => True
  end.

(** The codes of the most recent keyboard packet among [packets], or
    [current] when there is none. *)
Fixpoint latest_keys (current : list Z) (packets : list (list byte))
  : list Z :=
  match packets with
  | [] => current
  | p :: packets' =>
      latest_keys
        (if kbd_packet_type (read_keyboard_protocol p) =? PACKET_KEYBOARD
         then kbd_keys_pressed (read_keyboard_protocol p)
         else current)
        packets'
  end.

(** A reply of the device that polling can digest without leaving the key
    table: it fills the buffer, and if it is a keyboard packet its six codes
    are indices of [applespi_scancodes]. *)
Definition tame_packet (p : list byte) : Prop :=
  length p = Z.to_nat APPLESPI_PACKET_SIZE
  /\ (kbd_packet_type (read_keyboard_protocol p) = PACKET_KEYBOARD ->
      forallb in_table (kbd_keys_pressed (read_keyboard_protocol p)) = true).

Definition is_sync (c : input_call) : bool :=
  match c with
  | input_sync _ => true
  | _ => false
  end.

(** The device a packet with tag [tag] is reported on. *)
Definition device_of_tag (tag : Z) : input_dev :=
  if tag =? PACKET_KEYBOARD then poll_dev_input else touchpad_input_dev.

(** Two samples that agree in the seven fields [report_tp_state] and
    [report_finger_data] read. *)
Definition same_reported (f g : tp_finger) : Prop :=
  abs_x f = abs_x g /\ abs_y f = abs_y g
  /\ tool_major f = tool_major g /\ tool_minor f = tool_minor g
  /\ orientation f = orientation g
  /\ touch_major f = touch_major g /\ touch_minor f = touch_minor g.

(** The keyboard packet with codes 4 and 7 again, with other values in its
    counter, function-key and checksum bytes. *)
Definition adds_seven_other_bytes : list byte :=
  <[11%nat := x2a]> (<[25%nat := x01]> (<[26%nat := xbe]> (<[27%nat := xef]>
    (keyboard_packet 0 [4; 7; 0; 0; 0; 0])))).

(** A touching finger at [(ax, ay)] as [sample], with other values in the
    fields that are not reported. *)
Definition sample_other (ax ay : Z) : tp_finger := {|
  origin := 0; abs_x := ax; abs_y := ay; rel_x := 3; rel_y := 65535;
  tool_major := 60; tool_minor := 55; orientation := 1000;
  touch_major := 50; touch_minor := 40; pressure := 99; multi := 5
|}.

(** The packet of [touch_two_of_six] with those other values, and with
    finger counts that say 2 instead of 6. *)
Definition touch_two_of_six_other_bytes : list byte :=
  <[6%nat := x02]> (<[14%nat := x02]>
    (touchpad_packet 1
       [zero_finger; sample_other 100 200; zero_finger; zero_finger;
        sample_other 65436 300; zero_finger])).

(** Codes to release, in the words of the specification: each code held
    before, an empty slot not being a code, that is nowhere in the
    snapshot. *)
Definition spec_released (last keys : list Z) : list Z :=
  List.filter (fun c => negb (c =? 0) && negb (existsb (Z.eqb c) keys)) last.

(** Another stand-in for the input core, one that remembers contacts in its
    slots 0 to 2: position [i] gets slot [i + 3]. *)
Definition slots_after_three : list input_mt_pos -> nat -> Z :=
  fun _ i => Z.of_nat i + 3.

(** A stand-in that answers like [slot_per_index] for two positions and
    otherwise differently. *)
Definition slot_per_index_for_two : list input_mt_pos -> nat -> Z :=
  fun ps i => if (i <? 2)%nat then Z.of_nat i else Z.of_nat (length ps) + 7.

(** Code 4 is down; the packet adds five keys and has no empty slot. *)
Definition fills_all_slots : applespi_data :=
  with_last_keys [4; 0; 0; 0; 0; 0] (keyboard_packet 0 [4; 5; 6; 7; 8; 9]).

(** ** Layout checks *)

Example sizeof_applespi_scancodes : sizeof applespi_scancodes = 83.
Proof. reflexivity. Qed.

Example keyboard_packet_size :
  length (keyboard_packet 5 [4; 5; 6; 7; 8; 9]) = 256%nat.
Proof. reflexivity. Qed.

Example keyboard_packet_read :
  read_keyboard_protocol (keyboard_packet 5 [4; 200; 6; 7; 8; 255])
  = {| kbd_packet_type := 288; kbd_counter := 0; kbd_modifiers := 5;
       kbd_keys_pressed := [4; 200; 6; 7; 8; 255];
       kbd_fn_pressed := 0; kbd_crc_16 := 0 |}.
Proof. reflexivity. Qed.

Example touchpad_packet_size :
  length (rx_buffer touch_two_of_six) = 256%nat.
Proof. reflexivity. Qed.

Example touchpad_packet_read :
  tp_packet_type (read_touchpad_protocol (rx_buffer touch_two_of_six)) = 544
  /\ tp_clicked (read_touchpad_protocol (rx_buffer touch_two_of_six)) = 1
  /\ tp_fingers (read_touchpad_protocol (rx_buffer touch_two_of_six))
     = [zero_finger; sample 100 200; zero_finger; zero_finger;
        sample 65436 300; zero_finger].
Proof. repeat split; vm_compute; reflexivity. Qed.

Example raw2int_negative : raw2int 65436 = -100.
Proof. reflexivity. Qed.

(** ** The result monad and the loops *)

Lemma bind_ok {A B} (m : result A) (f : A -> result B) a t b t' :
  m = Ok a t -> f a = Ok b t' -> (m ≫= f) = Ok b (t ++ t').
Proof. intros -> Hf. cbn. unfold mbind, result_bind. now rewrite Hf. Qed.

Lemma bind_fault_l {A B} (m : result A) (f : A -> result B) i :
  m = Fault i -> (m ≫= f) = Fault i.
Proof. now intros ->. Qed.

Lemma bind_fault_r {A B} (m : result A) (f : A -> result B) a t i :
  m = Ok a t -> f a = Fault i -> (m ≫= f) = Fault i.
Proof. intros -> Hf. unfold mbind, result_bind. now rewrite Hf. Qed.

(** A loop whose every round returns makes the calls of its rounds, in
    order. *)
Lemma for_each_ok (l : list nat) body (calls : nat -> list input_call) :
  (forall i, In i l -> body i = Ok tt (calls i)) ->
  for_each l body = Ok tt (flat_map calls l).
Proof.
  induction l as [|i l IH]; intros Hb; [reflexivity|].
  cbn [for_each flat_map].
  apply bind_ok with (a := tt).
  - apply Hb. now left.
  - apply IH. intros j Hj. apply Hb. now right.
Qed.

(** A loop stops at the first round that faults. *)
Lemma for_each_fault (l1 l2 : list nat) i body k calls :
  (forall j, In j l1 -> body j = Ok tt (calls j)) ->
  body i = Fault k ->
  for_each (l1 ++ i :: l2) body = Fault k.
Proof.
  induction l1 as [|j l1 IH]; intros Hok Hi; cbn [app for_each].
  - now apply bind_fault_l.
  - apply bind_fault_r with (a := tt) (t := calls j).
    + apply Hok. now left.
    + apply IH; [|assumption]. intros j' Hj'. apply Hok. now right.
Qed.

Lemma table_read_in (t : list keycode) (i : Z) :
  0 <= i < sizeof t ->
  table_read t i = Ok (nth (Z.to_nat i) t KEY_RESERVED) [].
Proof.
  intros Hi. unfold table_read, sizeof in *.
  replace ((0 <=? i) && (i <? Z.of_nat (length t))) with true
    by (symmetry; apply andb_true_iff; split; [apply Z.leb_le|apply Z.ltb_lt]; lia).
  destruct (t !! Z.to_nat i) as [c|] eqn:E.
  - rewrite (nth_lookup_Some _ _ KEY_RESERVED _ E). reflexivity.
  - apply lookup_ge_None in E. lia.
Qed.

Lemma table_read_out (t : list keycode) (i : Z) :
  ~ (0 <= i < sizeof t) -> table_read t i = Fault i.
Proof.
  intros Hi. unfold table_read.
  destruct ((0 <=? i) && (i <? sizeof t)) eqn:E; [|reflexivity].
  apply andb_true_iff in E as [H1 H2].
  apply Z.leb_le in H1. apply Z.ltb_lt in H2. lia.
Qed.

Lemma in_table_spec (c : Z) :
  in_table c = true <-> 0 <= c < sizeof applespi_scancodes.
Proof.
  unfold in_table. rewrite andb_true_iff, Z.leb_le, Z.ltb_lt. tauto.
Qed.

Lemma flat_map_filter_map {A B} (p : A -> bool) (f : A -> B) (l : list A) :
  flat_map (fun a => if p a then [f a] else []) l = map f (List.filter p l).
Proof.
  induction l as [|a l IH]; [reflexivity|].
  cbn. destruct (p a); cbn; now rewrite IH.
Qed.

Lemma flat_map_single {A B} (f : A -> B) (l : list A) :
  flat_map (fun a => [f a]) l = map f l.
Proof.
  induction l as [|a l IH]; [reflexivity|]. cbn. now rewrite IH.
Qed.

Lemma flat_map_via {A B C} (g : A -> B) (h : B -> list C) (l : list A) :
  flat_map (fun a => h (g a)) l = flat_map h (map g l).
Proof.
  induction l as [|a l IH]; [reflexivity|]. cbn. now rewrite IH.
Qed.

Lemma still_pressed_mem (c : Z) (keys : list Z) :
  still_pressed c keys = existsb (Z.eqb c) (six keys).
Proof.
  unfold still_pressed, six.
  induction (seq 0 6) as [|j l IH]; [reflexivity|]. cbn. now rewrite IH.
Qed.

Lemma still_pressed_In (c : Z) (keys : list Z) :
  still_pressed c keys = true <-> In c (six keys).
Proof.
  rewrite still_pressed_mem, existsb_exists. split.
  - intros (k & Hk & E). apply Z.eqb_eq in E. now subst.
  - intros H. exists c. split; [assumption|apply Z.eqb_refl].
Qed.

(** ** The three loops of a keyboard packet *)

Lemma report_released_ok (last keys : list Z) :
  release_reads_in_table last keys = true ->
  report_released last keys
  = Ok tt (map release
             (List.filter (fun c => negb (still_pressed c keys)) (six last))).
Proof.
  intros Hb. unfold report_released, for_range.
  rewrite <- flat_map_filter_map. unfold six. rewrite <- flat_map_via.
  apply for_each_ok. intros i Hi.
  unfold release_reads_in_table in Hb. rewrite forallb_forall in Hb.
  specialize (Hb (array_get last i) (in_map _ _ _ Hi)).
  destruct (still_pressed (array_get last i) keys); [reflexivity|].
  cbn in Hb. apply in_table_spec in Hb.
  cbn [negb]. rewrite (table_read_in _ _ Hb). reflexivity.
Qed.

Lemma report_pressed_ok (keys : list Z) :
  report_pressed keys
  = Ok tt (map press
             (List.filter
                (fun c => (c <? sizeof applespi_scancodes) && (0 <? c))
                (six keys))).
Proof.
  unfold report_pressed, for_range.
  rewrite <- flat_map_filter_map. unfold six. rewrite <- flat_map_via.
  apply for_each_ok. intros i _.
  destruct ((array_get keys i <? sizeof applespi_scancodes)
            && (0 <? array_get keys i)) eqn:E; [|reflexivity].
  apply andb_true_iff in E as [H1 H2].
  apply Z.ltb_lt in H1. apply Z.ltb_lt in H2.
  rewrite table_read_in by lia. reflexivity.
Qed.

Lemma report_modifiers_ok (modifiers : Z) :
  report_modifiers modifiers
  = Ok tt (map (fun i =>
                  input_report_key poll_dev_input
                    (nth i applespi_controlcodes KEY_RESERVED)
                    (if Z.testbit modifiers (Z.of_nat i) then 1 else 0))
               (seq 0 8)).
Proof.
  unfold report_modifiers, for_range.
  rewrite <- flat_map_single.
  apply for_each_ok. intros i Hi. apply in_seq in Hi.
  assert (Hs : sizeof applespi_controlcodes = 8) by reflexivity.
  rewrite table_read_in by (rewrite Hs; lia).
  rewrite Nat2Z.id.
  now destruct (Z.testbit modifiers (Z.of_nat i)).
Qed.

Lemma forallb_first_false {A} (p : A -> bool) (l : list A) :
  forallb p l = false ->
  exists l1 a l2, l = l1 ++ a :: l2 /\ forallb p l1 = true /\ p a = false.
Proof.
  induction l as [|b l IH]; [discriminate|].
  cbn. destruct (p b) eqn:Eb; cbn.
  - intros H. destruct (IH H) as (l1 & a & l2 & -> & H1 & Ha).
    exists (b :: l1), a, l2. cbn. rewrite Eb. auto.
  - intros _. exists [], b, l. auto.
Qed.

Lemma forallb_via {A B} (g : A -> B) (p : B -> bool) (l : list A) :
  forallb p (map g l) = forallb (fun a => p (g a)) l.
Proof.
  induction l as [|a l IH]; [reflexivity|]. cbn. now rewrite IH.
Qed.

(** The release loop faults exactly when some old code has left the packet
    and is no index of the table; the fault carries that code. *)
Lemma report_released_fault (last keys : list Z) :
  release_reads_in_table last keys = false ->
  exists c, report_released last keys = Fault c
            /\ In c (six last) /\ ~ In c (six keys) /\ in_table c = false.
Proof.
  intros Hb. unfold release_reads_in_table, six in Hb.
  rewrite forallb_via in Hb.
  destruct (forallb_first_false _ _ Hb) as (l1 & i & l2 & El & H1 & Hi).
  apply orb_false_iff in Hi as [Hs Ht].
  exists (array_get last i). repeat split.
  - unfold report_released, for_range. rewrite El.
    apply for_each_fault with
      (calls := fun j => if negb (still_pressed (array_get last j) keys)
                         then [release (array_get last j)] else []).
    + intros j Hj. rewrite forallb_forall in H1. specialize (H1 j Hj).
      destruct (still_pressed (array_get last j) keys); [reflexivity|].
      cbn in H1. apply in_table_spec in H1.
      cbn [negb]. rewrite (table_read_in _ _ H1). reflexivity.
    + rewrite Hs. cbn [negb]. rewrite table_read_out; [reflexivity|].
      intros H. apply in_table_spec in H. congruence.
  - unfold six. apply in_map. rewrite El. apply in_elt.
  - intros H. apply still_pressed_In in H. congruence.
  - assumption.
Qed.

Lemma six_keys_pressed (buf : list byte) :
  six (kbd_keys_pressed (read_keyboard_protocol buf))
  = kbd_keys_pressed (read_keyboard_protocol buf).
Proof. reflexivity. Qed.

(** A keyboard packet whose release reads stay inside the table: the calls
    of the three loops in order, then [input_sync], and the new codes
    stored. *)
Lemma got_keyboard_ok (st : applespi_data) (k : keyboard_protocol) :
  release_reads_in_table (last_keys_pressed st) (kbd_keys_pressed k) = true ->
  got_keyboard st k
  = Ok (set_last_keys_pressed st (kbd_keys_pressed k))
       (trace_of (report_released (last_keys_pressed st) (kbd_keys_pressed k))
        ++ trace_of (report_pressed (kbd_keys_pressed k))
        ++ trace_of (report_modifiers (kbd_modifiers k))
        ++ [input_sync poll_dev_input]).
Proof.
  intros Hb. unfold got_keyboard.
  rewrite (report_released_ok _ _ Hb), report_pressed_ok, report_modifiers_ok.
  reflexivity.
Qed.

Lemma got_keyboard_fault (st : applespi_data) (k : keyboard_protocol) :
  release_reads_in_table (last_keys_pressed st) (kbd_keys_pressed k) = false ->
  exists c, got_keyboard st k = Fault c
            /\ In c (six (last_keys_pressed st))
            /\ ~ In c (six (kbd_keys_pressed k))
            /\ in_table c = false.
Proof.
  intros Hb. destruct (report_released_fault _ _ Hb) as (c & E & H).
  exists c. split; [|exact H]. unfold got_keyboard. now rewrite E.
Qed.

Lemma got_data_keyboard mt (st : applespi_data) :
  kbd_packet_type (read_keyboard_protocol (rx_buffer st)) = PACKET_KEYBOARD ->
  applespi_got_data mt st
  = got_keyboard st (read_keyboard_protocol (rx_buffer st)).
Proof. intros E. unfold applespi_got_data. now rewrite E. Qed.

Lemma got_data_other mt (st : applespi_data) :
  kbd_packet_type (read_keyboard_protocol (rx_buffer st)) <> PACKET_KEYBOARD ->
  kbd_packet_type (read_keyboard_protocol (rx_buffer st)) <> PACKET_TOUCHPAD ->
  applespi_got_data mt st = Ok st [].
Proof.
  intros H1 H2. unfold applespi_got_data.
  destruct (_ =? PACKET_NOTHING); [reflexivity|].
  apply Z.eqb_neq in H1, H2. now rewrite H1, H2.
Qed.

(** ** The touchpad branch *)

Lemma report_finger_data_ok input slot p f :
  report_finger_data input slot p f = Ok tt (contact_calls input slot p f).
Proof. reflexivity. Qed.

Lemma gather_step_eq (t : touchpad_protocol) p n i :
  gather_step t (p, n) i
  = if active (finger_at t i)
    then (<[n := finger_pos (finger_at t i)]> p, S n)
    else (p, n).
Proof.
  unfold gather_step, active. cbn [fst snd].
  now destruct (raw2int (touch_major (finger_at t i)) =? 0).
Qed.

(** The first loop, started at any count [n]: the positions of the active
    samples are appended from [pos[n]] on, in the order of the slots; the
    rest of the array keeps its contents. *)
Lemma gather_fold (t : touchpad_protocol) (l : list nat) :
  forall (p : list input_mt_pos) (n : nat),
    (n + length (List.filter active (map (finger_at t) l)) <= length p)%nat ->
    snd (fold_left (gather_step t) l (p, n))
    = (n + length (List.filter active (map (finger_at t) l)))%nat
    /\ take (snd (fold_left (gather_step t) l (p, n)))
            (fst (fold_left (gather_step t) l (p, n)))
       = take n p ++ map finger_pos (List.filter active (map (finger_at t) l))
    /\ length (fst (fold_left (gather_step t) l (p, n))) = length p.
Proof.
  induction l as [|i l IH]; intros p n Hn.
  - cbn. rewrite Nat.add_0_r, app_nil_r. auto.
  - cbn [fold_left map List.filter] in *. rewrite gather_step_eq.
    destruct (active (finger_at t i)) eqn:E.
    + cbn [length] in Hn.
      destruct (IH (<[n := finger_pos (finger_at t i)]> p) (S n))
        as (H1 & H2 & H3).
      { rewrite length_insert. lia. }
      rewrite length_insert in H3.
      split; [|split].
      * rewrite H1. cbn [length]. lia.
      * rewrite H2. cbn [map].
        rewrite (take_S_r _ _ (finger_pos (finger_at t i))).
        2:{ apply list_lookup_insert_eq. lia. }
        rewrite take_insert_ge by lia.
        now rewrite <- app_assoc.
      * exact H3.
    + apply IH. exact Hn.
Qed.

Lemma filter_length_le {A} (p : A -> bool) (l : list A) :
  (length (List.filter p l) <= length l)%nat.
Proof.
  induction l as [|a l IH]; [cbn; lia|]. cbn. destruct (p a); cbn; lia.
Qed.

Lemma tracked_length (t : touchpad_protocol) :
  (length (tracked t) <= MAX_FINGERS)%nat.
Proof.
  unfold tracked, samples. rewrite length_map.
  etransitivity; [apply filter_length_le|].
  now rewrite length_map, length_seq.
Qed.

Lemma gather_positions_ok (t : touchpad_protocol) (pos0 : list input_mt_pos) :
  length pos0 = MAX_FINGERS ->
  snd (gather_positions t pos0) = length (tracked t)
  /\ take (snd (gather_positions t pos0)) (fst (gather_positions t pos0))
     = tracked t
  /\ length (fst (gather_positions t pos0)) = MAX_FINGERS.
Proof.
  intros Hl. unfold gather_positions.
  pose proof (tracked_length t) as Ht. unfold tracked in Ht |- *.
  rewrite length_map in Ht |- *. unfold samples in *.
  destruct (gather_fold t (seq 0 MAX_FINGERS) pos0 0) as (H1 & H2 & H3).
  { cbn [Nat.add]. lia. }
  cbn [Nat.add] in H1. rewrite take_0 in H2. cbn [app] in H2.
  rewrite H3. auto.
Qed.

Lemma store_slots_get mt_assign slots0 ps i :
  (i < length ps)%nat ->
  array_get (store_slots mt_assign slots0 ps) i = mt_assign ps i.
Proof.
  intros Hi. unfold array_get, store_slots.
  rewrite nth_lookup, lookup_app_l by (now rewrite length_map, length_seq).
  change (map (mt_assign ps) (seq 0 (length ps)))
    with (mt_assign ps <$> seq 0 (length ps)).
  now rewrite list_lookup_fmap, lookup_seq_lt.
Qed.

Lemma pos_at_take (a : list input_mt_pos) n i :
  (i < n)%nat -> pos_at (take n a) i = pos_at a i.
Proof.
  intros Hi. unfold pos_at. now rewrite !nth_lookup, lookup_take_lt.
Qed.

(** A touchpad packet never faults; with the position array at its declared
    size its calls are [touch_calls]. *)
Lemma report_tp_state_ok mt_assign (st : applespi_data) (t : touchpad_protocol) :
  length (pos st) = MAX_FINGERS ->
  report_tp_state mt_assign st t
  = Ok (set_touch st (fst (gather_positions t (pos st)))
                  (store_slots mt_assign (slots st) (tracked t)))
       (touch_calls mt_assign t).
Proof.
  intros Hl. destruct (gather_positions_ok t (pos st) Hl) as (Hn & Ht & _).
  unfold report_tp_state. cbn zeta. rewrite Ht, Hn.
  unfold for_range.
  rewrite (for_each_ok _ _ (fun i =>
    contact_calls touchpad_input_dev (mt_assign (tracked t) i)
                  (pos_at (tracked t) i) (finger_at t i))).
  - reflexivity.
  - intros i Hi. apply in_seq in Hi.
    rewrite report_finger_data_ok, store_slots_get by lia.
    rewrite <- Ht at 3. rewrite pos_at_take by lia. reflexivity.
Qed.

Lemma got_data_touchpad mt_assign (st : applespi_data) :
  kbd_packet_type (read_keyboard_protocol (rx_buffer st)) = PACKET_TOUCHPAD ->
  applespi_got_data mt_assign st
  = report_tp_state mt_assign st (read_touchpad_protocol (rx_buffer st)).
Proof. intros E. unfold applespi_got_data. now rewrite E. Qed.

Lemma samples_read (buf : list byte) :
  samples (read_touchpad_protocol buf) = tp_fingers (read_touchpad_protocol buf).
Proof. reflexivity. Qed.

(** Rewrites the run on a keyboard packet into the calls of its three
    loops. *)
Ltac keyboard_branch Htag Hb :=
  rewrite (got_data_keyboard _ _ Htag), (got_keyboard_ok _ _ Hb).

(** * Properties of the specification *)

(** ** Keyboard packets *)

(** C1, as amended.  For every keyboard packet whose release reads stay inside
    the table, the second loop reports a press for each slot of the packet
    whose code [c] has [0 < c < sizeof applespi_scancodes], in slot order and
    without looking at the previous codes: an empty or out-of-table slot gives
    no press, a code held in several slots is pressed once per slot, and a
    packet equal to the previous one repeats its presses.  The presses follow
    the calls of the release loop and precede those of the modifier loop. *)
Theorem press_policy mt_assign (st : applespi_data) :
  kbd_packet_type (read_keyboard_protocol (rx_buffer st)) = PACKET_KEYBOARD ->
  release_reads_in_table
    (last_keys_pressed st)
    (kbd_keys_pressed (read_keyboard_protocol (rx_buffer st))) = true ->
  applespi_got_data mt_assign st
  = Ok (set_last_keys_pressed st
          (kbd_keys_pressed (read_keyboard_protocol (rx_buffer st))))
       (trace_of (report_released
                    (last_keys_pressed st)
                    (kbd_keys_pressed (read_keyboard_protocol (rx_buffer st))))
        ++ map press
             (List.filter
                (fun c => (c <? sizeof applespi_scancodes) && (0 <? c))
                (kbd_keys_pressed (read_keyboard_protocol (rx_buffer st))))
        ++ trace_of (report_modifiers
                       (kbd_modifiers (read_keyboard_protocol (rx_buffer st))))
        ++ [input_sync poll_dev_input]).
Proof.
  intros Htag Hb. keyboard_branch Htag Hb.
  rewrite report_pressed_ok, six_keys_pressed. reflexivity.
Qed.

(** With code 4 down, a packet holding codes 4 and 7 presses both. *)
Lemma press_policy_adds_seven :
  kbd_packet_type (read_keyboard_protocol (rx_buffer adds_seven))
  = PACKET_KEYBOARD
  /\ release_reads_in_table
       (last_keys_pressed adds_seven)
       (kbd_keys_pressed (read_keyboard_protocol (rx_buffer adds_seven))) = true
  /\ applespi_got_data slot_per_index adds_seven
     = Ok (set_last_keys_pressed adds_seven [4; 7; 0; 0; 0; 0])
          ([] ++ [input_report_key poll_dev_input KEY_A 1;
                  input_report_key poll_dev_input KEY_D 1]
           ++ idle_modifiers ++ [input_sync poll_dev_input]).
Proof.
  split; [reflexivity|]. split; [reflexivity|].
  exact (press_policy slot_per_index adds_seven eq_refl eq_refl).
Defined.

(** C1 fails as stated: codes [4; 4] are the previous codes and the packet
    holds them again.  The specification's policy has no code to press; the
    press loop presses [KEY_A] twice (and the eight modifier reports are made
    as well). *)
Lemma repeated_snapshot_presses_again :
  last_keys_pressed held_twice = [4; 4; 0; 0; 0; 0]
  /\ kbd_keys_pressed (read_keyboard_protocol (rx_buffer held_twice))
     = [4; 4; 0; 0; 0; 0]
  /\ spec_pressed [4; 4; 0; 0; 0; 0] [4; 4; 0; 0; 0; 0] = []
  /\ report_pressed [4; 4; 0; 0; 0; 0]
     = Ok tt [input_report_key poll_dev_input KEY_A 1;
              input_report_key poll_dev_input KEY_A 1]
  /\ applespi_got_data slot_per_index held_twice
     = Ok held_twice
          ([input_report_key poll_dev_input KEY_A 1;
            input_report_key poll_dev_input KEY_A 1]
           ++ idle_modifiers ++ [input_sync poll_dev_input]).
Proof. repeat split; vm_compute; reflexivity. Qed.

(** X16.  What the release loop does.  For every keyboard packet whose
    release reads stay inside the table, the first loop reports a release for
    each of the six entries of [last_keys_pressed] that occurs nowhere among
    the six codes of the packet, in the order of the array, and these reports
    come before the calls of the press loop.  An entry 0 is treated like any
    other: it is released as [applespi_scancodes[0]], [KEY_RESERVED], when
    the packet has no empty slot. *)
Theorem release_policy mt_assign (st : applespi_data) :
  kbd_packet_type (read_keyboard_protocol (rx_buffer st)) = PACKET_KEYBOARD ->
  release_reads_in_table
    (last_keys_pressed st)
    (kbd_keys_pressed (read_keyboard_protocol (rx_buffer st))) = true ->
  applespi_got_data mt_assign st
  = Ok (set_last_keys_pressed st
          (kbd_keys_pressed (read_keyboard_protocol (rx_buffer st))))
       (map release
          (List.filter
             (fun c =>
                negb (existsb (Z.eqb c)
                        (kbd_keys_pressed
                           (read_keyboard_protocol (rx_buffer st)))))
             (six (last_keys_pressed st)))
        ++ trace_of (report_pressed
                       (kbd_keys_pressed (read_keyboard_protocol (rx_buffer st))))
        ++ trace_of (report_modifiers
                       (kbd_modifiers (read_keyboard_protocol (rx_buffer st))))
        ++ [input_sync poll_dev_input]).
Proof.
  intros Htag Hb. keyboard_branch Htag Hb.
  rewrite (report_released_ok _ _ Hb). cbn [trace_of].
  erewrite filter_ext; [reflexivity|].
  intros c. cbn beta. now rewrite still_pressed_mem, six_keys_pressed.
Qed.

(** Previous codes [4; 5] and an empty packet: two releases, for [KEY_A] and
    [KEY_B], and no press.  Six previous codes and an empty packet: six
    releases in the order of the previous array, and no press. *)
Lemma release_policy_drops :
  (kbd_packet_type (read_keyboard_protocol (rx_buffer drops_two))
   = PACKET_KEYBOARD
   /\ release_reads_in_table
        (last_keys_pressed drops_two)
        (kbd_keys_pressed (read_keyboard_protocol (rx_buffer drops_two))) = true
   /\ applespi_got_data slot_per_index drops_two
      = Ok (set_last_keys_pressed drops_two [0; 0; 0; 0; 0; 0])
           ([input_report_key poll_dev_input KEY_A 0;
             input_report_key poll_dev_input KEY_B 0]
            ++ [] ++ idle_modifiers ++ [input_sync poll_dev_input]))
  /\ applespi_got_data slot_per_index drops_six
     = Ok (set_last_keys_pressed drops_six [0; 0; 0; 0; 0; 0])
          ([input_report_key poll_dev_input KEY_F 0;
            input_report_key poll_dev_input KEY_E 0;
            input_report_key poll_dev_input KEY_D 0;
            input_report_key poll_dev_input KEY_C 0;
            input_report_key poll_dev_input KEY_B 0;
            input_report_key poll_dev_input KEY_A 0]
           ++ [] ++ idle_modifiers ++ [input_sync poll_dev_input]).
Proof.
  split; [split; [reflexivity|]; split; [reflexivity|] |].
  - exact (release_policy slot_per_index drops_two eq_refl eq_refl).
  - exact (release_policy slot_per_index drops_six eq_refl eq_refl).
Defined.

(** C2 does not hold of the release loop.  The press loop skips a slot that
    is 0 or no index of the table; the release loop has no such test.  From
    the zeroed driver data, where no key is held, a packet with all six slots
    taken makes it report six releases of code 0; with one key held and the
    other five slots empty, the same packet makes it report five.  The
    specification's policy releases nothing in either case.  (An entry of 83
    or more sends the same unguarded read outside the table.) *)
Theorem release_of_empty_slots :
  spec_released [0; 0; 0; 0; 0; 0] [4; 5; 6; 7; 8; 9] = []
  /\ applespi_poll slot_per_index (probed_state blank blank)
       (keyboard_packet 0 [4; 5; 6; 7; 8; 9])
     = Ok (with_last_keys [4; 5; 6; 7; 8; 9]
             (keyboard_packet 0 [4; 5; 6; 7; 8; 9]))
          (repeat (input_report_key poll_dev_input KEY_RESERVED 0) 6
           ++ [input_report_key poll_dev_input KEY_A 1;
               input_report_key poll_dev_input KEY_B 1;
               input_report_key poll_dev_input KEY_C 1;
               input_report_key poll_dev_input KEY_D 1;
               input_report_key poll_dev_input KEY_E 1;
               input_report_key poll_dev_input KEY_F 1]
           ++ idle_modifiers ++ [input_sync poll_dev_input])
  /\ spec_released [4; 0; 0; 0; 0; 0] [4; 5; 6; 7; 8; 9] = []
  /\ report_released [4; 0; 0; 0; 0; 0] [4; 5; 6; 7; 8; 9]
     = Ok tt (repeat (input_report_key poll_dev_input KEY_RESERVED 0) 5)
  /\ trace_of (applespi_got_data slot_per_index fills_all_slots)
     = repeat (input_report_key poll_dev_input KEY_RESERVED 0) 5
       ++ [input_report_key poll_dev_input KEY_A 1;
           input_report_key poll_dev_input KEY_B 1;
           input_report_key poll_dev_input KEY_C 1;
           input_report_key poll_dev_input KEY_D 1;
           input_report_key poll_dev_input KEY_E 1;
           input_report_key poll_dev_input KEY_F 1]
       ++ idle_modifiers ++ [input_sync poll_dev_input]
  /\ report_pressed [0; 0; 0; 0; 0; 0] = Ok tt [].
Proof. repeat split; vm_compute; reflexivity. Qed.

(** C4 does not hold of the release loop.  The press loop guards its table
    read and returns for every six codes; the release loop reads
    [applespi_scancodes[last_keys_pressed[i]]] unguarded.  From the zeroed
    driver data, a keyboard packet holding code 200 is accepted and stored;
    the next packet, without that code, reads entry 200 of the 83-entry
    table. *)
Theorem release_read_outside_table :
  (forall keys, report_pressed keys = Ok tt (trace_of (report_pressed keys)))
  /\ applespi_poll slot_per_index (probed_state blank blank)
                   (keyboard_packet 0 [200; 0; 0; 0; 0; 0])
     = Ok stored_200 (idle_modifiers ++ [input_sync poll_dev_input])
  /\ applespi_poll slot_per_index stored_200
                   (keyboard_packet 0 [0; 0; 0; 0; 0; 0])
     = Fault 200
  /\ applespi_polls slot_per_index (probed_state blank blank)
       [keyboard_packet 0 [200; 0; 0; 0; 0; 0];
        keyboard_packet 0 [0; 0; 0; 0; 0; 0]]
     = Fault 200.
Proof.
  split; [|repeat split; vm_compute; reflexivity].
  intros keys. now rewrite report_pressed_ok.
Qed.

(** C5, as amended.  For every keyboard packet whose release reads stay inside
    the table, the third loop makes one report for each of the eight modifier
    bits, in bit order: value 1 when the bit is set in the packet and value 0
    when it is clear, whatever was reported before.  Afterwards
    [last_keys_pressed] holds the six codes of the packet and nothing else of
    the driver data has changed; no modifier mask is kept. *)
Theorem modifier_policy mt_assign (st : applespi_data) :
  kbd_packet_type (read_keyboard_protocol (rx_buffer st)) = PACKET_KEYBOARD ->
  release_reads_in_table
    (last_keys_pressed st)
    (kbd_keys_pressed (read_keyboard_protocol (rx_buffer st))) = true ->
  exists st',
    applespi_got_data mt_assign st
    = Ok st'
         (trace_of (report_released
                      (last_keys_pressed st)
                      (kbd_keys_pressed (read_keyboard_protocol (rx_buffer st))))
          ++ trace_of (report_pressed
                         (kbd_keys_pressed
                            (read_keyboard_protocol (rx_buffer st))))
          ++ map (fun i =>
                    input_report_key poll_dev_input
                      (nth i applespi_controlcodes KEY_RESERVED)
                      (if Z.testbit
                            (kbd_modifiers
                               (read_keyboard_protocol (rx_buffer st)))
                            (Z.of_nat i)
                       then 1 else 0))
                 (seq 0 8)
          ++ [input_sync poll_dev_input])
    /\ last_keys_pressed st'
       = kbd_keys_pressed (read_keyboard_protocol (rx_buffer st))
    /\ tx_buffer st' = tx_buffer st /\ rx_buffer st' = rx_buffer st
    /\ pos st' = pos st /\ slots st' = slots st.
Proof.
  intros Htag Hb. eexists. split.
  - keyboard_branch Htag Hb.
    rewrite report_modifiers_ok. reflexivity.
  - cbn. auto.
Qed.

(** Codes 4 and 5 released with no modifier down: eight reports of value 0,
    left control first. *)
Lemma modifier_policy_idle :
  kbd_packet_type (read_keyboard_protocol (rx_buffer drops_two))
  = PACKET_KEYBOARD
  /\ release_reads_in_table
       (last_keys_pressed drops_two)
       (kbd_keys_pressed (read_keyboard_protocol (rx_buffer drops_two))) = true
  /\ exists st',
       applespi_got_data slot_per_index drops_two
       = Ok st'
            ([input_report_key poll_dev_input KEY_A 0;
              input_report_key poll_dev_input KEY_B 0]
             ++ []
             ++ [input_report_key poll_dev_input KEY_LEFTCTRL 0;
                 input_report_key poll_dev_input KEY_LEFTSHIFT 0;
                 input_report_key poll_dev_input KEY_LEFTALT 0;
                 input_report_key poll_dev_input KEY_LEFTMETA 0;
                 input_report_key poll_dev_input KEY_RESERVED 0;
                 input_report_key poll_dev_input KEY_RIGHTSHIFT 0;
                 input_report_key poll_dev_input KEY_RIGHTALT 0;
                 input_report_key poll_dev_input KEY_RIGHTMETA 0]
             ++ [input_sync poll_dev_input])
       /\ last_keys_pressed st' = [0; 0; 0; 0; 0; 0]
       /\ tx_buffer st' = tx_buffer drops_two
       /\ rx_buffer st' = rx_buffer drops_two
       /\ pos st' = pos drops_two /\ slots st' = slots drops_two.
Proof.
  split; [reflexivity|]. split; [reflexivity|].
  exact (modifier_policy slot_per_index drops_two eq_refl eq_refl).
Defined.

(** C5 fails as stated: the packet with left shift down is processed from
    the zeroed driver data and then arrives once more.  The second time no bit
    has changed and the specification's policy has no event; the modifier
    loop makes all eight reports again, the press of [KEY_LEFTSHIFT] among
    them. *)
Lemma unchanged_modifiers_reported_again :
  applespi_poll slot_per_index (probed_state blank blank)
                (keyboard_packet 2 [0; 0; 0; 0; 0; 0])
  = Ok shift_held
       [input_report_key poll_dev_input KEY_LEFTCTRL 0;
        input_report_key poll_dev_input KEY_LEFTSHIFT 1;
        input_report_key poll_dev_input KEY_LEFTALT 0;
        input_report_key poll_dev_input KEY_LEFTMETA 0;
        input_report_key poll_dev_input KEY_RESERVED 0;
        input_report_key poll_dev_input KEY_RIGHTSHIFT 0;
        input_report_key poll_dev_input KEY_RIGHTALT 0;
        input_report_key poll_dev_input KEY_RIGHTMETA 0;
        input_sync poll_dev_input]
  /\ spec_modifier_reports 2 2 = []
  /\ applespi_poll slot_per_index shift_held
                   (keyboard_packet 2 [0; 0; 0; 0; 0; 0])
     = Ok shift_held
          [input_report_key poll_dev_input KEY_LEFTCTRL 0;
           input_report_key poll_dev_input KEY_LEFTSHIFT 1;
           input_report_key poll_dev_input KEY_LEFTALT 0;
           input_report_key poll_dev_input KEY_LEFTMETA 0;
           input_report_key poll_dev_input KEY_RESERVED 0;
           input_report_key poll_dev_input KEY_RIGHTSHIFT 0;
           input_report_key poll_dev_input KEY_RIGHTALT 0;
           input_report_key poll_dev_input KEY_RIGHTMETA 0;
           input_sync poll_dev_input].
Proof. repeat split; vm_compute; reflexivity. Qed.

(** ** Packets of another kind *)

(** The touchpad branch returns whatever the driver data holds. *)
Lemma report_tp_state_returns mt_assign (st : applespi_data)
    (t : touchpad_protocol) :
  exists pos' slots' calls,
    report_tp_state mt_assign st t = Ok (set_touch st pos' slots') calls.
Proof.
  unfold report_tp_state. cbn zeta. unfold for_range.
  erewrite for_each_ok.
  - do 3 eexists. reflexivity.
  - intros i _. apply report_finger_data_ok.
Qed.

(** C9.  A packet whose tag is not [PACKET_KEYBOARD] is processed without a
    fault and leaves [last_keys_pressed] as it was; if its tag is not
    [PACKET_TOUCHPAD] either, that is [PACKET_NOTHING] or an unknown tag, no
    call is made and the driver data is unchanged. *)
Theorem other_packets_keep_rollover mt_assign (st : applespi_data) :
  kbd_packet_type (read_keyboard_protocol (rx_buffer st)) <> PACKET_KEYBOARD ->
  exists st' calls,
    applespi_got_data mt_assign st = Ok st' calls
    /\ last_keys_pressed st' = last_keys_pressed st
    /\ (kbd_packet_type (read_keyboard_protocol (rx_buffer st))
        <> PACKET_TOUCHPAD ->
        st' = st /\ calls = []).
Proof.
  intros Hk.
  destruct (Z.eq_dec (kbd_packet_type (read_keyboard_protocol (rx_buffer st)))
                     PACKET_TOUCHPAD) as [Ht|Ht].
  - rewrite (got_data_touchpad _ _ Ht).
    destruct (report_tp_state_returns mt_assign st
                (read_touchpad_protocol (rx_buffer st)))
      as (pos' & slots' & calls & E).
    rewrite E. do 2 eexists. split; [reflexivity|]. split; [reflexivity|].
    intros H. contradiction.
  - rewrite (got_data_other _ _ Hk Ht). do 2 eexists. auto.
Qed.

(** A touchpad packet and a [PACKET_NOTHING] packet, each arriving while
    code 4 is down: code 4 stays stored, and the second makes no call. *)
Lemma other_packets_keep_code_4 :
  (kbd_packet_type (read_keyboard_protocol (rx_buffer touch_second_slot))
   <> PACKET_KEYBOARD
   /\ exists st' calls,
        applespi_got_data slot_per_index touch_second_slot = Ok st' calls
        /\ last_keys_pressed st' = [4; 0; 0; 0; 0; 0]
        /\ (544 <> PACKET_TOUCHPAD -> st' = touch_second_slot /\ calls = []))
  /\ (kbd_packet_type (read_keyboard_protocol (rx_buffer nothing_new))
      <> PACKET_KEYBOARD
      /\ exists st' calls,
           applespi_got_data slot_per_index nothing_new = Ok st' calls
           /\ last_keys_pressed st' = [4; 0; 0; 0; 0; 0]
           /\ (53312 <> PACKET_TOUCHPAD -> st' = nothing_new /\ calls = [])).
Proof.
  split.
  - split; [discriminate|].
    apply (other_packets_keep_rollover slot_per_index touch_second_slot).
    discriminate.
  - split; [discriminate|].
    apply (other_packets_keep_rollover slot_per_index nothing_new).
    discriminate.
Defined.

Lemma flat_map_ext_in {A B} (f g : A -> list B) (l : list A) :
  (forall a, In a l -> f a = g a) -> flat_map f l = flat_map g l.
Proof.
  induction l as [|a l IH]; intros H; [reflexivity|].
  cbn. rewrite (H a) by now left.
  f_equal. apply IH. intros b Hb. apply H. now right.
Qed.

Lemma touch_calls_agree mt1 mt2 (t : touchpad_protocol) :
  (forall i, (i < length (tracked t))%nat ->
             mt1 (tracked t) i = mt2 (tracked t) i) ->
  touch_calls mt1 t = touch_calls mt2 t
  /\ forall slots0,
       store_slots mt1 slots0 (tracked t) = store_slots mt2 slots0 (tracked t).
Proof.
  intros H. split.
  - unfold touch_calls. f_equal. f_equal.
    apply flat_map_ext_in. intros i Hi. apply in_seq in Hi.
    now rewrite H by lia.
  - intros slots0. unfold store_slots. f_equal.
    apply map_ext_in. intros i Hi. apply in_seq in Hi. apply H. lia.
Qed.

(** C10, as amended.  Processing one received packet is a function of the
    buffer contents, of the previous codes and, for a touchpad packet, of the
    slots the input core answers for the positions of the packet.  Two runs
    on equal buffer contents and equal previous codes, with the touchpad
    scratch array at its declared size, end alike whenever the two input
    cores answer the same slots for a touchpad packet's positions: both fault
    at the same table index, or both return, having made the same calls and
    holding the same codes; the touchpad scratch arrays end equal as well
    when they started equal.  For a packet of any other kind nothing is asked
    of the answers.  The contents of the transmit buffer play no part. *)
Theorem processing_depends_on_answered_slots
    (mt1 mt2 : list input_mt_pos -> nat -> Z) (st1 st2 : applespi_data) :
  rx_buffer st1 = rx_buffer st2 ->
  last_keys_pressed st1 = last_keys_pressed st2 ->
  length (pos st1) = MAX_FINGERS ->
  length (pos st2) = MAX_FINGERS ->
  (kbd_packet_type (read_keyboard_protocol (rx_buffer st1)) = PACKET_TOUCHPAD ->
   forall i,
     (i < length (tracked (read_touchpad_protocol (rx_buffer st1))))%nat ->
     mt1 (tracked (read_touchpad_protocol (rx_buffer st1))) i
     = mt2 (tracked (read_touchpad_protocol (rx_buffer st1))) i) ->
  match applespi_got_data mt1 st1, applespi_got_data mt2 st2 with
  | Ok a calls1, Ok b calls2 =>
      calls1 = calls2
      /\ last_keys_pressed a = last_keys_pressed b
      /\ (pos st1 = pos st2 -> slots st1 = slots st2 ->
          pos a = pos b /\ slots a = slots b)
  | Fault i, Fault j => i = j
  | _, _ => False
  end.
Proof.
  intros Hrx Hlast Hp1 Hp2 Hmt.
  unfold applespi_got_data. rewrite <- Hrx.
  destruct (_ =? PACKET_NOTHING); [cbn; tauto|].
  destruct (_ =? PACKET_KEYBOARD).
  - unfold got_keyboard. rewrite <- Hlast.
    destruct (report_released _ _) as [[] calls|i]; [|reflexivity].
    rewrite report_pressed_ok, report_modifiers_ok. cbn. tauto.
  - destruct (_ =? PACKET_TOUCHPAD) eqn:Et; [|cbn; tauto].
    apply Z.eqb_eq in Et.
    destruct (touch_calls_agree mt1 mt2 _ (Hmt Et)) as (Hc & Hs).
    rewrite !report_tp_state_ok by assumption.
    rewrite Hc. cbn [last_keys_pressed pos slots set_touch].
    split; [reflexivity|]. split; [assumption|].
    intros -> ->. rewrite Hs. auto.
Qed.

(** The same touchpad packet processed from two driver states that differ
    in the transmit buffer and in both scratch arrays, by two input cores
    that answer slots 0 and 1 for its two positions. *)
Lemma processing_depends_on_answered_slots_touch :
  rx_buffer touch_two_of_six = rx_buffer touch_two_of_six_other
  /\ last_keys_pressed touch_two_of_six
     = last_keys_pressed touch_two_of_six_other
  /\ length (pos touch_two_of_six) = MAX_FINGERS
  /\ length (pos touch_two_of_six_other) = MAX_FINGERS
  /\ match applespi_got_data slot_per_index touch_two_of_six,
           applespi_got_data slot_per_index_for_two touch_two_of_six_other
     with
     | Ok a calls1, Ok b calls2 =>
         calls1 = calls2
         /\ last_keys_pressed a = last_keys_pressed b
         /\ (pos touch_two_of_six = pos touch_two_of_six_other ->
             slots touch_two_of_six = slots touch_two_of_six_other ->
             pos a = pos b /\ slots a = slots b)
     | Fault i, Fault j => i = j
     | _, _ => False
     end.
Proof.
  do 4 (split; [reflexivity|]).
  apply (processing_depends_on_answered_slots
           slot_per_index slot_per_index_for_two
           touch_two_of_six touch_two_of_six_other
           eq_refl eq_refl eq_refl eq_refl).
  intros _ i Hi. change (i < 2)%nat in Hi.
  unfold slot_per_index, slot_per_index_for_two.
  destruct (Nat.ltb_spec i 2) as [_|H]; [reflexivity|lia].
Defined.

(** C10 fails as stated: one driver state and one buffer, a touchpad packet
    with two touching fingers.  An input core that has no contact answers
    slots 0 and 1; one that remembers three contacts answers slots 3 and 4.
    The buffer and the previous codes are the same in both runs and the calls
    differ. *)
Lemma answered_slots_change_the_calls :
  trace_of (applespi_got_data slot_per_index touch_two_of_six)
  <> trace_of (applespi_got_data slots_after_three touch_two_of_six)
  /\ List.filter
       (fun c => match c with input_mt_slot _ _ => true | _ => false end)
       (trace_of (applespi_got_data slot_per_index touch_two_of_six))
     = [input_mt_slot touchpad_input_dev 0; input_mt_slot touchpad_input_dev 1]
  /\ List.filter
       (fun c => match c with input_mt_slot _ _ => true | _ => false end)
       (trace_of (applespi_got_data slots_after_three touch_two_of_six))
     = [input_mt_slot touchpad_input_dev 3; input_mt_slot touchpad_input_dev 4].
Proof.
  split; [|split; vm_compute; reflexivity].
  intros H. vm_compute in H. congruence.
Qed.

(** ** Touchpad packets *)

Lemma u8_at_range (buf : list byte) (off : nat) : 0 <= u8_at buf off <= 255.
Proof.
  unfold u8_at. destruct (buf !! off) as [b|]; [|lia].
  pose proof (Byte.to_N_bounded b). lia.
Qed.

Lemma u16_at_range (buf : list byte) (off : nat) : 0 <= u16_at buf off < 65536.
Proof.
  unfold u16_at.
  pose proof (u8_at_range buf off). pose proof (u8_at_range buf (off + 1)).
  lia.
Qed.

(** On a 16-bit field [raw2int] is zero only at zero. *)
Lemma raw2int_zero (v : Z) : 0 <= v < 65536 -> (raw2int v =? 0) = (v =? 0).
Proof.
  intros Hv. unfold raw2int.
  destruct (32768 <=? v) eqn:E.
  - apply Z.leb_le in E.
    transitivity false; [apply Z.eqb_neq|symmetry; apply Z.eqb_neq]; lia.
  - reflexivity.
Qed.

Lemma active_read (buf : list byte) (f : tp_finger) :
  In f (tp_fingers (read_touchpad_protocol buf)) ->
  active f = negb (touch_major f =? 0).
Proof.
  cbn [tp_fingers read_touchpad_protocol]. intros H.
  apply in_map_iff in H as (i & <- & _).
  unfold active. cbn [touch_major read_tp_finger].
  now rewrite raw2int_zero by apply u16_at_range.
Qed.

Lemma leading_active_filter (fs : list tp_finger) :
  leading_active fs = true ->
  List.filter active fs = take (length (List.filter active fs)) fs.
Proof.
  induction fs as [|f fs IH]; [reflexivity|].
  cbn [leading_active List.filter]. destruct (active f) eqn:E.
  - intros H. cbn [length take]. f_equal. now apply IH.
  - intros H.
    assert (Hn : List.filter active fs = []).
    { clear IH E. induction fs as [|g fs IH]; [reflexivity|].
      cbn in H. apply andb_true_iff in H as [Hg H].
      cbn. destruct (active g); [discriminate|]. now apply IH. }
    rewrite Hn. reflexivity.
Qed.

(** X17.  When the slip of the report loop cannot show.  For every touchpad
    packet in which no inactive slot comes before an active one, the calls
    are: the positions of the active samples handed to the input core; then,
    for each active sample in slot order, one contact update whose slot is the
    one the input core answered and whose touch axes, tool axes, orientation
    and position are all taken from that one sample (no pressure is
    reported); then the frame marker, the button report carrying the click
    byte, and the final sync. *)
Theorem contact_update_integrity mt_assign (st : applespi_data) :
  kbd_packet_type (read_keyboard_protocol (rx_buffer st)) = PACKET_TOUCHPAD ->
  length (pos st) = MAX_FINGERS ->
  leading_active (tp_fingers (read_touchpad_protocol (rx_buffer st))) = true ->
  exists st',
    applespi_got_data mt_assign st
    = Ok st'
        (input_mt_assign_slots touchpad_input_dev
           (map finger_pos
              (List.filter active
                 (tp_fingers (read_touchpad_protocol (rx_buffer st))))) 0
         :: flat_map
              (fun i =>
                 contact_update
                   (mt_assign
                      (map finger_pos
                         (List.filter active
                            (tp_fingers
                               (read_touchpad_protocol (rx_buffer st))))) i)
                   (nth i (List.filter active
                             (tp_fingers
                                (read_touchpad_protocol (rx_buffer st))))
                        zero_finger))
              (seq 0 (length
                        (List.filter active
                           (tp_fingers
                              (read_touchpad_protocol (rx_buffer st))))))
         ++ [input_mt_sync_frame touchpad_input_dev;
             input_report_key touchpad_input_dev BTN_LEFT
               (tp_clicked (read_touchpad_protocol (rx_buffer st)));
             input_sync touchpad_input_dev]).
Proof.
  intros Htag Hl Hlead.
  rewrite (got_data_touchpad _ _ Htag), (report_tp_state_ok _ _ _ Hl).
  eexists. f_equal. unfold touch_calls, tracked. rewrite samples_read.
  set (fs := tp_fingers (read_touchpad_protocol (rx_buffer st))) in *.
  rewrite length_map. f_equal. f_equal.
  apply flat_map_ext_in. intros i Hi. apply in_seq in Hi.
  unfold contact_update.
  assert (Hf : finger_at (read_touchpad_protocol (rx_buffer st)) i
               = nth i (List.filter active fs) zero_finger).
  { unfold finger_at. fold fs. rewrite (leading_active_filter _ Hlead).
    rewrite !nth_lookup, lookup_take_lt by lia. reflexivity. }
  rewrite Hf. f_equal.
  unfold pos_at. rewrite (nth_indep _ _ (finger_pos zero_finger)).
  - apply map_nth.
  - rewrite length_map. lia.
Qed.

(** Two touching fingers in the first two slots: each contact update carries
    the values of its own sample. *)
Lemma contact_update_integrity_leading :
  kbd_packet_type (read_keyboard_protocol (rx_buffer touch_leading))
  = PACKET_TOUCHPAD
  /\ length (pos touch_leading) = MAX_FINGERS
  /\ leading_active
       (tp_fingers (read_touchpad_protocol (rx_buffer touch_leading))) = true
  /\ exists st',
       applespi_got_data slot_per_index touch_leading
       = Ok st'
           (input_mt_assign_slots touchpad_input_dev
              [finger_pos (sample 100 200); finger_pos (sample 300 400)] 0
            :: (contact_update 0 (sample 100 200)
                ++ contact_update 1 (sample 300 400) ++ [])
            ++ [input_mt_sync_frame touchpad_input_dev;
                input_report_key touchpad_input_dev BTN_LEFT 1;
                input_sync touchpad_input_dev]).
Proof.
  do 3 (split; [reflexivity|]).
  exact (contact_update_integrity slot_per_index touch_leading
           eq_refl eq_refl eq_refl).
Defined.

(** C3 does not hold of the report loop.  The first loop of
    [report_tp_state] gathers the positions of the active samples at
    [pos[0 .. n-1]]; the report loop then passes [&pos[i]] together with
    [&t->fingers[i]], the sample in raw slot [i].  With the only touching
    finger in the second slot, one contact update is made: its position is
    that of the touching finger, but its touch axes, tool axes and
    orientation are read from the first slot, which is empty (and no pressure
    is reported).  Whatever the slot, it is not a contact update of the
    touching finger. *)
Lemma contact_update_mixes_samples :
  List.filter active
    (tp_fingers (read_touchpad_protocol (rx_buffer touch_second_slot)))
  = [sample 100 200]
  /\ trace_of (applespi_got_data slot_per_index touch_second_slot)
     = input_mt_assign_slots touchpad_input_dev [{| x := 100; y := 6400 |}] 0
       :: [input_mt_slot touchpad_input_dev 0;
           input_mt_report_slot_state touchpad_input_dev MT_TOOL_FINGER true;
           input_report_abs touchpad_input_dev ABS_MT_TOUCH_MAJOR 0;
           input_report_abs touchpad_input_dev ABS_MT_TOUCH_MINOR 0;
           input_report_abs touchpad_input_dev ABS_MT_WIDTH_MAJOR 0;
           input_report_abs touchpad_input_dev ABS_MT_WIDTH_MINOR 0;
           input_report_abs touchpad_input_dev ABS_MT_ORIENTATION 16384;
           input_report_abs touchpad_input_dev ABS_MT_POSITION_X 100;
           input_report_abs touchpad_input_dev ABS_MT_POSITION_Y 6400]
       ++ [input_mt_sync_frame touchpad_input_dev;
           input_report_key touchpad_input_dev BTN_LEFT 0;
           input_sync touchpad_input_dev]
  /\ contact_update 0 (sample 100 200)
     = [input_mt_slot touchpad_input_dev 0;
        input_mt_report_slot_state touchpad_input_dev MT_TOOL_FINGER true;
        input_report_abs touchpad_input_dev ABS_MT_TOUCH_MAJOR 100;
        input_report_abs touchpad_input_dev ABS_MT_TOUCH_MINOR 80;
        input_report_abs touchpad_input_dev ABS_MT_WIDTH_MAJOR 120;
        input_report_abs touchpad_input_dev ABS_MT_WIDTH_MINOR 110;
        input_report_abs touchpad_input_dev ABS_MT_ORIENTATION 15384;
        input_report_abs touchpad_input_dev ABS_MT_POSITION_X 100;
        input_report_abs touchpad_input_dev ABS_MT_POSITION_Y 6400]
  /\ (forall slot,
        contact_update slot (sample 100 200)
        <> [input_mt_slot touchpad_input_dev 0;
            input_mt_report_slot_state touchpad_input_dev MT_TOOL_FINGER true;
            input_report_abs touchpad_input_dev ABS_MT_TOUCH_MAJOR 0;
            input_report_abs touchpad_input_dev ABS_MT_TOUCH_MINOR 0;
            input_report_abs touchpad_input_dev ABS_MT_WIDTH_MAJOR 0;
            input_report_abs touchpad_input_dev ABS_MT_WIDTH_MINOR 0;
            input_report_abs touchpad_input_dev ABS_MT_ORIENTATION 16384;
            input_report_abs touchpad_input_dev ABS_MT_POSITION_X 100;
            input_report_abs touchpad_input_dev ABS_MT_POSITION_Y 6400]).
Proof.
  split; [vm_compute; reflexivity|].
  split; [vm_compute; reflexivity|].
  split; [vm_compute; reflexivity|].
  intros slot H. vm_compute in H. congruence.
Qed.

(** C7.  For every touchpad packet, the positions handed to the input core
    for tracking are those of the samples whose [touch_major] field is not
    zero, in slot order, and of no other sample: as many entries as there are
    such samples, never more than [MAX_FINGERS], kept in the leading entries
    of the driver's position array.  Tracking is asked for once, and the
    button report carries the click byte of the packet. *)
Theorem active_samples_tracked mt_assign (st : applespi_data) :
  kbd_packet_type (read_keyboard_protocol (rx_buffer st)) = PACKET_TOUCHPAD ->
  length (pos st) = MAX_FINGERS ->
  exists st' contacts,
    applespi_got_data mt_assign st
    = Ok st'
        (input_mt_assign_slots touchpad_input_dev
           (map finger_pos
              (List.filter (fun f => negb (touch_major f =? 0))
                 (tp_fingers (read_touchpad_protocol (rx_buffer st))))) 0
         :: contacts
         ++ [input_mt_sync_frame touchpad_input_dev;
             input_report_key touchpad_input_dev BTN_LEFT
               (u8_at (rx_buffer st) 17);
             input_sync touchpad_input_dev])
    /\ existsb is_assign_call contacts = false
    /\ Nat.le
         (length (List.filter (fun f => negb (touch_major f =? 0))
                    (tp_fingers (read_touchpad_protocol (rx_buffer st)))))
         MAX_FINGERS
    /\ take (length (List.filter (fun f => negb (touch_major f =? 0))
                       (tp_fingers (read_touchpad_protocol (rx_buffer st)))))
            (pos st')
       = map finger_pos
           (List.filter (fun f => negb (touch_major f =? 0))
              (tp_fingers (read_touchpad_protocol (rx_buffer st)))).
Proof.
  intros Htag Hl.
  rewrite (got_data_touchpad _ _ Htag), (report_tp_state_ok _ _ _ Hl).
  destruct (gather_positions_ok (read_touchpad_protocol (rx_buffer st))
              (pos st) Hl) as (Hn & Ht & _).
  pose proof (tracked_length (read_touchpad_protocol (rx_buffer st))) as Hle.
  unfold touch_calls in *. unfold tracked in *. rewrite samples_read in *.
  rewrite length_map in *.
  rewrite (filter_ext_in active (fun f => negb (touch_major f =? 0)))
    in * by apply active_read.
  do 2 eexists. split; [reflexivity|]. split; [|split].
  - apply not_true_is_false. intros H.
    apply existsb_exists in H as (c & Hc & Hassign).
    apply in_flat_map in Hc as (i & _ & Hc).
    cbn in Hc. intuition (subst; discriminate).
  - exact Hle.
  - cbn [pos set_touch]. rewrite <- Hn. exact Ht.
Qed.

(** Two touching fingers among six slots, button down: two positions are
    tracked, those of the second and the fifth slot, and the button report
    has value 1. *)
Lemma active_samples_tracked_two_of_six :
  kbd_packet_type (read_keyboard_protocol (rx_buffer touch_two_of_six))
  = PACKET_TOUCHPAD
  /\ length (pos touch_two_of_six) = MAX_FINGERS
  /\ exists st' contacts,
       applespi_got_data slot_per_index touch_two_of_six
       = Ok st'
           (input_mt_assign_slots touchpad_input_dev
              [{| x := 100; y := 6400 |}; {| x := -100; y := 6300 |}] 0
            :: contacts
            ++ [input_mt_sync_frame touchpad_input_dev;
                input_report_key touchpad_input_dev BTN_LEFT 1;
                input_sync touchpad_input_dev])
       /\ existsb is_assign_call contacts = false
       /\ Nat.le 2 MAX_FINGERS
       /\ take 2 (pos st')
          = [{| x := 100; y := 6400 |}; {| x := -100; y := 6300 |}].
Proof.
  do 2 (split; [reflexivity|]).
  exact (active_samples_tracked slot_per_index touch_two_of_six
           eq_refl eq_refl).
Defined.

(** ** The bus *)

(** C8, as amended.  With both buffers at their allocated size,
    [applespi_sync_write_and_response] is one message of three transfers, in
    order: the 256 bytes of the transmit buffer are sent, 4 bytes are
    received, 256 bytes are received; the receive buffer then holds the last
    256 bytes and nothing of the 4.  [applespi_sync_read], which is what
    polling uses, is one message of a single transfer: 256 bytes are
    received, nothing is sent and no 4 bytes are read first. *)
Theorem transaction_shape (st : applespi_data) (r1 r2 r3 : list byte) :
  length (tx_buffer st) = Z.to_nat APPLESPI_PACKET_SIZE ->
  length (rx_buffer st) = Z.to_nat APPLESPI_PACKET_SIZE ->
  length r3 = Z.to_nat APPLESPI_PACKET_SIZE ->
  applespi_sync_write_and_response st [r1; r2; r3]
  = {| after := set_buffer st The_rx_buffer r3;
       on_the_bus := [Transmit (tx_buffer st); Receive 4; Receive 256];
       status := 516 |}
  /\ applespi_sync_read st [r3]
     = {| after := set_buffer st The_rx_buffer r3;
          on_the_bus := [Receive 256];
          status := 256 |}.
Proof.
  intros Htx Hrx Hr3.
  change (Z.to_nat APPLESPI_PACKET_SIZE) with 256%nat in *.
  unfold applespi_sync_write_and_response, applespi_sync_read, applespi_sync,
    write_and_response_message, read_message.
  change (Z.to_nat APPLESPI_PACKET_SIZE) with 256%nat.
  cbn [app spi_sync run_transfer rx_buf tx_buf len hd tl fst snd phase_of
       set_buffer get_buffer rx_buffer tx_buffer last_keys_pressed pos slots].
  rewrite (take_ge (tx_buffer st)), !(take_ge r3) by lia.
  rewrite !drop_ge, !app_nil_r.
  - split; reflexivity.
  - lia.
  - rewrite length_app, length_take, length_drop. lia.
Qed.

(** A keyboard packet fetched either way from the freshly probed driver; the
    four bytes of the short read leave no trace. *)
Lemma transaction_shape_blank :
  length (tx_buffer (probed_state blank blank)) = Z.to_nat APPLESPI_PACKET_SIZE
  /\ length (rx_buffer (probed_state blank blank))
     = Z.to_nat APPLESPI_PACKET_SIZE
  /\ length (keyboard_packet 0 [4; 0; 0; 0; 0; 0])
     = Z.to_nat APPLESPI_PACKET_SIZE
  /\ applespi_sync_write_and_response (probed_state blank blank)
       [[]; [x01; x02; x03; x04]; keyboard_packet 0 [4; 0; 0; 0; 0; 0]]
     = {| after := probed_state blank (keyboard_packet 0 [4; 0; 0; 0; 0; 0]);
          on_the_bus := [Transmit blank; Receive 4; Receive 256];
          status := 516 |}
  /\ applespi_sync_read (probed_state blank blank)
       [keyboard_packet 0 [4; 0; 0; 0; 0; 0]]
     = {| after := probed_state blank (keyboard_packet 0 [4; 0; 0; 0; 0; 0]);
          on_the_bus := [Receive 256];
          status := 256 |}.
Proof.
  do 3 (split; [reflexivity|]).
  exact (transaction_shape (probed_state blank blank) []
           [x01; x02; x03; x04] (keyboard_packet 0 [4; 0; 0; 0; 0; 0])
           eq_refl eq_refl eq_refl).
Defined.

(** C8 fails as stated for polling: the read that [applespi_poll] performs
    is a single receive; it sends nothing and has no 4-byte receive, so its
    phases are not those of the write-and-response exchange. *)
Lemma poll_is_a_single_receive :
  on_the_bus (applespi_sync_read (probed_state blank blank) [blank])
  = [Receive 256]
  /\ on_the_bus (applespi_sync_write_and_response (probed_state blank blank)
                   [[]; [x00; x00; x00; x00]; blank])
     = [Transmit blank; Receive 4; Receive 256]
  /\ on_the_bus (applespi_sync_read (probed_state blank blank) [blank])
     <> on_the_bus (applespi_sync_write_and_response
                      (probed_state blank blank)
                      [[]; [x00; x00; x00; x00]; blank]).
Proof.
  split; [reflexivity|]. split; [reflexivity|]. discriminate.
Qed.

(** ** Sizes are kept

    The size assumptions made above hold of the freshly probed driver and
    after every poll that returns. *)

Lemma probed_state_sized (tx rx : list byte) :
  length tx = Z.to_nat APPLESPI_PACKET_SIZE ->
  length rx = Z.to_nat APPLESPI_PACKET_SIZE ->
  sized (probed_state tx rx).
Proof. intros Ht Hr. unfold sized. cbn. auto. Qed.

Lemma store_slots_length mt_assign (slots0 : list Z) (ps : list input_mt_pos) :
  (length ps <= length slots0)%nat ->
  length (store_slots mt_assign slots0 ps) = length slots0.
Proof.
  intros H. unfold store_slots.
  rewrite length_app, length_map, length_seq, length_drop. lia.
Qed.

Lemma got_data_sized mt_assign (st st' : applespi_data) calls :
  sized st -> applespi_got_data mt_assign st = Ok st' calls -> sized st'.
Proof.
  intros (Htx & Hrx & Hk & Hp & Hs). unfold applespi_got_data.
  destruct (_ =? PACKET_NOTHING).
  { intros [= <- _]. unfold sized. auto. }
  destruct (_ =? PACKET_KEYBOARD).
  { destruct (release_reads_in_table (last_keys_pressed st)
                (kbd_keys_pressed (read_keyboard_protocol (rx_buffer st))))
      eqn:Hb.
    - rewrite (got_keyboard_ok _ _ Hb). intros [= <- _].
      unfold sized. cbn. auto.
    - destruct (got_keyboard_fault _ _ Hb) as (c & -> & _). discriminate. }
  destruct (_ =? PACKET_TOUCHPAD).
  { rewrite (report_tp_state_ok _ _ _ Hp). intros [= <- _].
    destruct (gather_positions_ok (read_touchpad_protocol (rx_buffer st))
                (pos st) Hp) as (_ & _ & Hlen).
    pose proof (tracked_length (read_touchpad_protocol (rx_buffer st))).
    unfold sized. cbn [tx_buffer rx_buffer last_keys_pressed pos slots set_touch].
    rewrite store_slots_length by lia. auto. }
  intros [= <- _]. unfold sized. auto.
Qed.

Lemma poll_sized mt_assign (st st' : applespi_data) (reply : list byte) calls :
  sized st ->
  length reply = Z.to_nat APPLESPI_PACKET_SIZE ->
  applespi_poll mt_assign st reply = Ok st' calls -> sized st'.
Proof.
  intros (Htx & Hrx & Hk & Hp & Hs) Hr. unfold applespi_poll.
  apply got_data_sized. unfold sized.
  cbn [applespi_sync_read applespi_sync after read_message app spi_sync fst
       run_transfer rx_buf len hd set_buffer get_buffer
       tx_buffer rx_buffer last_keys_pressed pos slots].
  repeat split; try assumption.
  change (Z.to_nat APPLESPI_PACKET_SIZE) with 256%nat in *.
  rewrite length_app, length_take, length_drop. lia.
Qed.

Lemma polls_sized mt_assign (packets : list (list byte)) :
  forall (st st' : applespi_data) calls,
    sized st ->
    (forall p, In p packets -> length p = Z.to_nat APPLESPI_PACKET_SIZE) ->
    applespi_polls mt_assign st packets = Ok st' calls -> sized st'.
Proof.
  induction packets as [|p ps IH]; intros st st' calls Hs Hl;
    cbn [applespi_polls].
  - now intros [= <- _].
  - destruct (applespi_poll mt_assign st p) as [st1 c1|i] eqn:E;
      [|discriminate].
    assert (Hs1 : sized st1).
    { apply (poll_sized _ _ _ _ _ Hs (Hl p (or_introl eq_refl)) E). }
    unfold mbind, result_bind.
    destruct (applespi_polls mt_assign st1 ps) as [st2 c2|j] eqn:E2;
      [|discriminate].
    intros [= <- _]. apply (IH st1 st2 c2 Hs1); [|exact E2].
    intros q Hq. apply Hl. now right.
Qed.

(** * Further properties of the driver *)

(** ** Reading 16-bit fields *)

(** X1.  [raw2int] reads a 16-bit field as two's complement: the result lies
    in [-32768, 32767], is negative exactly for fields of 32768 and more, and
    is congruent to the field modulo 65536, so no two fields read alike. *)
Theorem raw2int_twos_complement (v w : Z) :
  0 <= v < 65536 ->
  0 <= w < 65536 ->
  -32768 <= raw2int v <= 32767
  /\ (raw2int v < 0 <-> 32768 <= v)
  /\ raw2int v mod 65536 = v
  /\ (raw2int v = raw2int w -> v = w).
Proof.
  intros Hv Hw.
  assert (Hmod : forall u, 0 <= u < 65536 -> raw2int u mod 65536 = u).
  { intros u Hu. unfold raw2int. destruct (32768 <=? u) eqn:E.
    - replace (u - 65536) with (u + (-1) * 65536) by lia.
      rewrite Z.mod_add by lia. apply Z.mod_small. lia.
    - apply Z.mod_small. lia. }
  repeat split.
  - unfold raw2int. destruct (32768 <=? v) eqn:E;
      [apply Z.leb_le in E|apply Z.leb_gt in E]; lia.
  - unfold raw2int. destruct (32768 <=? v) eqn:E;
      [apply Z.leb_le in E|apply Z.leb_gt in E]; lia.
  - unfold raw2int. destruct (32768 <=? v) eqn:E;
      [apply Z.leb_le in E|apply Z.leb_gt in E]; lia.
  - unfold raw2int. destruct (32768 <=? v) eqn:E;
      [apply Z.leb_le in E|apply Z.leb_gt in E]; lia.
  - now apply Hmod.
  - intros E. rewrite <- (Hmod v Hv), <- (Hmod w Hw). now rewrite E.
Qed.

(** The fields 65436 and 100 read as -100 and 100. *)
Lemma raw2int_twos_complement_minus_100 :
  0 <= 65436 < 65536
  /\ 0 <= 100 < 65536
  /\ -32768 <= raw2int 65436 <= 32767
  /\ (raw2int 65436 < 0 <-> 32768 <= 65436)
  /\ raw2int 65436 mod 65536 = 65436
  /\ (raw2int 65436 = raw2int 100 -> 65436 = 100).
Proof.
  split; [lia|]. split; [lia|].
  apply (raw2int_twos_complement 65436 100); lia.
Defined.

(** ** When a keyboard packet leaves the key table *)

Lemma release_reads_in_table_false (last keys : list Z) (c : Z) :
  In c (six last) -> ~ In c (six keys) -> in_table c = false ->
  release_reads_in_table last keys = false.
Proof.
  intros Hc Hk Ht. apply not_true_is_false. intros H.
  unfold release_reads_in_table in H. rewrite forallb_forall in H.
  specialize (H c Hc). apply orb_true_iff in H as [H|H].
  - apply Hk. now apply still_pressed_In.
  - congruence.
Qed.

(** X2.  A keyboard packet is processed with a read outside
    [applespi_scancodes] exactly when some entry of [last_keys_pressed] is
    neither among the six codes of the packet nor an index of the table; the
    index read is such an entry.  Otherwise processing returns. *)
Theorem keyboard_fault_iff mt_assign (st : applespi_data) :
  kbd_packet_type (read_keyboard_protocol (rx_buffer st)) = PACKET_KEYBOARD ->
  ((exists i, applespi_got_data mt_assign st = Fault i)
   <-> (exists c,
          In c (six (last_keys_pressed st))
          /\ ~ In c (kbd_keys_pressed (read_keyboard_protocol (rx_buffer st)))
          /\ ~ (0 <= c < sizeof applespi_scancodes)))
  /\ (forall i,
        applespi_got_data mt_assign st = Fault i ->
        In i (six (last_keys_pressed st))
        /\ ~ In i (kbd_keys_pressed (read_keyboard_protocol (rx_buffer st)))
        /\ ~ (0 <= i < sizeof applespi_scancodes))
  /\ ((exists st' calls, applespi_got_data mt_assign st = Ok st' calls)
      \/ (exists i, applespi_got_data mt_assign st = Fault i)).
Proof.
  intros Htag. rewrite (got_data_keyboard _ _ Htag).
  destruct (release_reads_in_table (last_keys_pressed st)
              (kbd_keys_pressed (read_keyboard_protocol (rx_buffer st))))
    eqn:Hb.
  - rewrite (got_keyboard_ok _ _ Hb). split; [split|split].
    + intros (i & E). discriminate.
    + intros (c & Hc & Hk & Ht). exfalso.
      rewrite (release_reads_in_table_false _ _ c) in Hb; try easy.
      apply not_true_is_false. intros H. now apply in_table_spec in H.
    + intros i E. discriminate.
    + left. eauto.
  - destruct (got_keyboard_fault _ _ Hb) as (c & E & Hc & Hk & Ht).
    rewrite six_keys_pressed in Hk.
    assert (Hn : ~ (0 <= c < sizeof applespi_scancodes)).
    { intros H. apply in_table_spec in H. congruence. }
    rewrite E. split; [split|split].
    + intros _. eauto.
    + intros _. eauto.
    + intros i [= <-]. auto.
    + right. eauto.
Qed.

(** The stored code 200 and an empty packet. *)
Lemma keyboard_fault_iff_stored_200 :
  kbd_packet_type
    (read_keyboard_protocol
       (rx_buffer (with_last_keys [200; 0; 0; 0; 0; 0]
                     (keyboard_packet 0 [0; 0; 0; 0; 0; 0]))))
  = PACKET_KEYBOARD
  /\ applespi_got_data slot_per_index
       (with_last_keys [200; 0; 0; 0; 0; 0]
          (keyboard_packet 0 [0; 0; 0; 0; 0; 0]))
     = Fault 200
  /\ (In 200 [200; 0; 0; 0; 0; 0]
      /\ ~ In 200 [0; 0; 0; 0; 0; 0]
      /\ ~ (0 <= 200 < sizeof applespi_scancodes)).
Proof.
  split; [reflexivity|]. split; [vm_compute; reflexivity|].
  apply (keyboard_fault_iff slot_per_index
           (with_last_keys [200; 0; 0; 0; 0; 0]
              (keyboard_packet 0 [0; 0; 0; 0; 0; 0])) eq_refl).
  vm_compute. reflexivity.
Defined.

(** ** Polling *)

Lemma six_sized (a : list Z) : length a = MAX_ROLLOVER -> six a = a.
Proof.
  intros H. do 7 (destruct a as [|? a]; try discriminate). reflexivity.
Qed.

Lemma sync_read_after (st : applespi_data) (reply : list byte) :
  length reply = Z.to_nat APPLESPI_PACKET_SIZE ->
  (length (rx_buffer st) <= Z.to_nat APPLESPI_PACKET_SIZE)%nat ->
  after (applespi_sync_read st [reply]) = set_buffer st The_rx_buffer reply.
Proof.
  intros Hr Hrx.
  change (Z.to_nat APPLESPI_PACKET_SIZE) with 256%nat in *.
  unfold applespi_sync_read, applespi_sync, read_message.
  change (Z.to_nat APPLESPI_PACKET_SIZE) with 256%nat.
  cbn [after app spi_sync fst run_transfer rx_buf len hd get_buffer].
  now rewrite take_ge, drop_ge, app_nil_r by lia.
Qed.

(** X3.  What a poll does is decided by the reply alone, never by the packet
    still lying in the receive buffer: two driver states that differ only in
    the old contents of that buffer are taken to the same result by the same
    256-byte reply. *)
Theorem poll_forgets_old_packet mt_assign (st : applespi_data)
    (old1 old2 reply : list byte) :
  length reply = Z.to_nat APPLESPI_PACKET_SIZE ->
  length old1 = Z.to_nat APPLESPI_PACKET_SIZE ->
  length old2 = Z.to_nat APPLESPI_PACKET_SIZE ->
  applespi_poll mt_assign (set_buffer st The_rx_buffer old1) reply
  = applespi_poll mt_assign (set_buffer st The_rx_buffer old2) reply
  /\ applespi_poll mt_assign (set_buffer st The_rx_buffer old1) reply
     = applespi_got_data mt_assign (set_buffer st The_rx_buffer reply).
Proof.
  intros Hr H1 H2. unfold applespi_poll.
  rewrite !sync_read_after by (cbn [rx_buffer set_buffer]; lia).
  split; reflexivity.
Qed.

(** An old keyboard packet or an old touchpad packet in the buffer: the
    reply, a packet with codes 4 and 7, is processed the same. *)
Lemma poll_forgets_old_packet_example :
  length (keyboard_packet 0 [4; 7; 0; 0; 0; 0]) = Z.to_nat APPLESPI_PACKET_SIZE
  /\ length (keyboard_packet 2 [9; 0; 0; 0; 0; 0])
     = Z.to_nat APPLESPI_PACKET_SIZE
  /\ length (rx_buffer touch_two_of_six) = Z.to_nat APPLESPI_PACKET_SIZE
  /\ applespi_poll slot_per_index
       (set_buffer (probed_state blank blank) The_rx_buffer
          (keyboard_packet 2 [9; 0; 0; 0; 0; 0]))
       (keyboard_packet 0 [4; 7; 0; 0; 0; 0])
     = applespi_poll slot_per_index
         (set_buffer (probed_state blank blank) The_rx_buffer
            (rx_buffer touch_two_of_six))
         (keyboard_packet 0 [4; 7; 0; 0; 0; 0]).
Proof.
  do 3 (split; [reflexivity|]).
  apply (poll_forgets_old_packet slot_per_index (probed_state blank blank)
           (keyboard_packet 2 [9; 0; 0; 0; 0; 0])
           (rx_buffer touch_two_of_six)
           (keyboard_packet 0 [4; 7; 0; 0; 0; 0])
           eq_refl eq_refl eq_refl).
Defined.

Lemma all_in_table_reads (last keys : list Z) :
  length last = MAX_ROLLOVER ->
  forallb in_table last = true ->
  release_reads_in_table last keys = true.
Proof.
  intros Hl Ht. unfold release_reads_in_table. rewrite (six_sized _ Hl).
  rewrite forallb_forall in *. intros c Hc.
  rewrite (Ht c Hc). apply orb_true_r.
Qed.

(** One poll with a tame reply from a state whose stored codes are in the
    table. *)
Lemma tame_poll mt_assign (st : applespi_data) (p : list byte) :
  sized st ->
  forallb in_table (last_keys_pressed st) = true ->
  tame_packet p ->
  exists st' calls,
    applespi_poll mt_assign st p = Ok st' calls
    /\ sized st'
    /\ forallb in_table (last_keys_pressed st') = true.
Proof.
  intros Hs Ht (Hp & Hk).
  pose proof Hs as (Htx & Hrx & Hl & Hpos & Hsl).
  assert (E : applespi_poll mt_assign st p
              = applespi_got_data mt_assign (set_buffer st The_rx_buffer p)).
  { unfold applespi_poll. now rewrite sync_read_after by lia. }
  assert (Hs' : sized (set_buffer st The_rx_buffer p)).
  { unfold sized. cbn. auto. }
  rewrite E. unfold applespi_got_data.
  cbn [rx_buffer set_buffer].
  destruct (_ =? PACKET_NOTHING).
  { do 2 eexists. split; [reflexivity|]. split; [exact Hs'|exact Ht]. }
  destruct (_ =? PACKET_KEYBOARD) eqn:Ek.
  { apply Z.eqb_eq in Ek. specialize (Hk Ek).
    rewrite got_keyboard_ok
      by (cbn [last_keys_pressed set_buffer]; now apply all_in_table_reads).
    do 2 eexists. split; [reflexivity|]. split; [|exact Hk].
    unfold sized. cbn. auto. }
  destruct (_ =? PACKET_TOUCHPAD).
  { rewrite report_tp_state_ok by (cbn [pos set_buffer]; exact Hpos).
    do 2 eexists. split; [reflexivity|]. split; [|exact Ht].
    destruct (gather_positions_ok (read_touchpad_protocol p) (pos st) Hpos)
      as (_ & _ & Hlen).
    pose proof (tracked_length (read_touchpad_protocol p)).
    unfold sized.
    cbn [tx_buffer rx_buffer last_keys_pressed pos slots set_touch set_buffer].
    rewrite store_slots_length by lia. auto. }
  do 2 eexists. split; [reflexivity|]. split; [exact Hs'|exact Ht].
Qed.

(** X4.  As long as every keyboard packet the device sends holds only codes
    below the size of [applespi_scancodes], polling never reads outside the
    table: from a driver state of the declared sizes whose stored codes are
    table indices, any sequence of such 256-byte replies, of whatever kinds,
    is processed to the end, and the final state is again of that sort. *)
Theorem tame_polls_return mt_assign (packets : list (list byte)) :
  forall st : applespi_data,
    sized st ->
    forallb in_table (last_keys_pressed st) = true ->
    (forall p, In p packets -> tame_packet p) ->
    exists st' calls,
      applespi_polls mt_assign st packets = Ok st' calls
      /\ sized st'
      /\ forallb in_table (last_keys_pressed st') = true.
Proof.
  induction packets as [|p ps IH]; intros st Hs Ht Hp.
  - do 2 eexists. split; [reflexivity|]. auto.
  - destruct (tame_poll mt_assign st p Hs Ht (Hp p (or_introl eq_refl)))
      as (st1 & c1 & E1 & Hs1 & Ht1).
    destruct (IH st1 Hs1 Ht1) as (st2 & c2 & E2 & Hs2 & Ht2).
    { intros q Hq. apply Hp. now right. }
    exists st2, (c1 ++ c2). split; [|auto].
    cbn [applespi_polls]. rewrite E1. unfold mbind, result_bind.
    now rewrite E2.
Qed.

(** From the freshly probed driver: keys, a touch, nothing, and the keys
    gone. *)
Lemma tame_polls_return_session :
  sized (probed_state blank blank)
  /\ forallb in_table (last_keys_pressed (probed_state blank blank)) = true
  /\ exists st' calls,
       applespi_polls slot_per_index (probed_state blank blank)
         [keyboard_packet 2 [4; 82; 0; 0; 0; 0];
          rx_buffer touch_two_of_six;
          tagged_packet PACKET_NOTHING;
          keyboard_packet 0 [0; 0; 0; 0; 0; 0]]
       = Ok st' calls
       /\ sized st'
       /\ forallb in_table (last_keys_pressed st') = true.
Proof.
  split; [now apply probed_state_sized|]. split; [reflexivity|].
  apply (tame_polls_return slot_per_index).
  - now apply probed_state_sized.
  - reflexivity.
  - intros p [<-|[<-|[<-|[<-|[]]]]]; (split; [reflexivity|]);
      intros H; try discriminate H; reflexivity.
Defined.

(** X5.  The unguarded release read is reached in two polls from any state:
    if a keyboard packet that is itself processed holds a code outside the
    table, and the next keyboard packet no longer holds that code, the second
    poll reads outside the table, at a code of the first packet that the
    second dropped. *)
Theorem dropped_wild_code_faults mt_assign (st : applespi_data)
    (p1 p2 : list byte) (c : Z) :
  length (rx_buffer st) = Z.to_nat APPLESPI_PACKET_SIZE ->
  length p1 = Z.to_nat APPLESPI_PACKET_SIZE ->
  length p2 = Z.to_nat APPLESPI_PACKET_SIZE ->
  kbd_packet_type (read_keyboard_protocol p1) = PACKET_KEYBOARD ->
  kbd_packet_type (read_keyboard_protocol p2) = PACKET_KEYBOARD ->
  release_reads_in_table (last_keys_pressed st)
    (kbd_keys_pressed (read_keyboard_protocol p1)) = true ->
  In c (kbd_keys_pressed (read_keyboard_protocol p1)) ->
  ~ In c (kbd_keys_pressed (read_keyboard_protocol p2)) ->
  in_table c = false ->
  exists i,
    applespi_polls mt_assign st [p1; p2] = Fault i
    /\ In i (kbd_keys_pressed (read_keyboard_protocol p1))
    /\ ~ In i (kbd_keys_pressed (read_keyboard_protocol p2))
    /\ in_table i = false.
Proof.
  intros Hrx H1 H2 Hk1 Hk2 Hb Hc Hn Ht.
  set (st1 := set_last_keys_pressed (set_buffer st The_rx_buffer p1)
                (kbd_keys_pressed (read_keyboard_protocol p1))).
  assert (E1 : exists calls, applespi_poll mt_assign st p1 = Ok st1 calls).
  { unfold applespi_poll. rewrite sync_read_after by lia.
    rewrite got_data_keyboard by exact Hk1.
    rewrite got_keyboard_ok by exact Hb. eexists. reflexivity. }
  destruct E1 as (calls1 & E1).
  assert (Hb2 : release_reads_in_table (last_keys_pressed st1)
                  (kbd_keys_pressed (read_keyboard_protocol p2)) = false).
  { apply (release_reads_in_table_false _ _ c);
      [|now rewrite six_keys_pressed|assumption].
    subst st1. cbn [last_keys_pressed set_last_keys_pressed].
    now rewrite six_keys_pressed. }
  destruct (got_keyboard_fault
              (set_buffer st1 The_rx_buffer p2)
              (read_keyboard_protocol p2) Hb2)
    as (i & E & Hi & Hi2 & Hti).
  assert (E2 : applespi_poll mt_assign st1 p2 = Fault i).
  { unfold applespi_poll.
    rewrite sync_read_after by (subst st1; cbn; lia).
    rewrite got_data_keyboard by exact Hk2. exact E. }
  exists i. split.
  - cbn [applespi_polls]. rewrite E1. unfold mbind at 1, result_bind.
    rewrite E2. reflexivity.
  - subst st1. cbn [last_keys_pressed set_last_keys_pressed set_buffer] in Hi.
    rewrite six_keys_pressed in Hi, Hi2. auto.
Qed.

(** Code 255 pressed while code 4 is held, then released. *)
Lemma dropped_wild_code_faults_255 :
  exists i,
    applespi_polls slot_per_index
      (with_last_keys [4; 0; 0; 0; 0; 0] blank)
      [keyboard_packet 0 [4; 255; 0; 0; 0; 0];
       keyboard_packet 0 [4; 0; 0; 0; 0; 0]]
    = Fault i
    /\ In i [4; 255; 0; 0; 0; 0]
    /\ ~ In i [4; 0; 0; 0; 0; 0]
    /\ in_table i = false.
Proof.
  apply (dropped_wild_code_faults slot_per_index
           (with_last_keys [4; 0; 0; 0; 0; 0] blank)
           (keyboard_packet 0 [4; 255; 0; 0; 0; 0])
           (keyboard_packet 0 [4; 0; 0; 0; 0; 0]) 255);
    try reflexivity.
  - right. left. reflexivity.
  - intros [H|[H|[H|[H|[H|[H|[]]]]]]]; discriminate H.
Defined.

(** A packet that is no keyboard packet: only the two touchpad scratch
    arrays can change. *)
Lemma other_packets_state mt_assign (st : applespi_data) :
  kbd_packet_type (read_keyboard_protocol (rx_buffer st)) <> PACKET_KEYBOARD ->
  exists pos' slots' calls,
    applespi_got_data mt_assign st = Ok (set_touch st pos' slots') calls.
Proof.
  intros Hk. unfold applespi_got_data.
  assert (Hst : st = set_touch st (pos st) (slots st)) by now destruct st.
  destruct (_ =? PACKET_NOTHING).
  { exists (pos st), (slots st), []. now rewrite <- Hst. }
  apply Z.eqb_neq in Hk. rewrite Hk.
  destruct (_ =? PACKET_TOUCHPAD).
  - apply report_tp_state_returns.
  - exists (pos st), (slots st), []. now rewrite <- Hst.
Qed.

Lemma got_data_keeps_buffers mt_assign (st st' : applespi_data) calls :
  applespi_got_data mt_assign st = Ok st' calls ->
  rx_buffer st' = rx_buffer st
  /\ tx_buffer st' = tx_buffer st
  /\ last_keys_pressed st'
     = if kbd_packet_type (read_keyboard_protocol (rx_buffer st))
          =? PACKET_KEYBOARD
       then kbd_keys_pressed (read_keyboard_protocol (rx_buffer st))
       else last_keys_pressed st.
Proof.
  destruct (Z.eq_dec (kbd_packet_type (read_keyboard_protocol (rx_buffer st)))
                     PACKET_KEYBOARD) as [Hk|Hk].
  - rewrite (got_data_keyboard _ _ Hk). rewrite Hk, Z.eqb_refl.
    destruct (release_reads_in_table (last_keys_pressed st)
                (kbd_keys_pressed (read_keyboard_protocol (rx_buffer st))))
      eqn:Hb.
    + rewrite (got_keyboard_ok _ _ Hb). intros [= <- _]. cbn. auto.
    + destruct (got_keyboard_fault _ _ Hb) as (c & -> & _). discriminate.
  - destruct (other_packets_state mt_assign st Hk) as (pos' & slots' & c & E).
    rewrite E. intros [= <- _].
    apply Z.eqb_neq in Hk. rewrite Hk. cbn. auto.
Qed.

(** X6.  After any run of polls that returns, [last_keys_pressed] holds the
    six codes of the most recent keyboard packet of the run, or what it held
    before when the run had none; touchpad, empty and unknown packets in
    between do not disturb it. *)
Theorem stored_codes_are_latest mt_assign (packets : list (list byte)) :
  forall (st st' : applespi_data) calls,
    length (rx_buffer st) = Z.to_nat APPLESPI_PACKET_SIZE ->
    (forall p, In p packets -> length p = Z.to_nat APPLESPI_PACKET_SIZE) ->
    applespi_polls mt_assign st packets = Ok st' calls ->
    last_keys_pressed st' = latest_keys (last_keys_pressed st) packets.
Proof.
  induction packets as [|p ps IH]; intros st st' calls Hrx Hl;
    cbn [applespi_polls latest_keys].
  - now intros [= <- _].
  - destruct (applespi_poll mt_assign st p) as [st1 c1|i] eqn:E1;
      [|discriminate].
    unfold mbind, result_bind.
    destruct (applespi_polls mt_assign st1 ps) as [st2 c2|j] eqn:E2;
      [|discriminate].
    intros [= <- _].
    unfold applespi_poll in E1.
    rewrite sync_read_after in E1
      by (rewrite ?(Hl p (or_introl eq_refl)); lia).
    apply got_data_keeps_buffers in E1 as (R1 & _ & K1).
    cbn [rx_buffer set_buffer last_keys_pressed] in R1, K1.
    rewrite <- K1. apply (IH st1 st2 c2); [| |exact E2].
    + rewrite R1. apply Hl. now left.
    + intros q Hq. apply Hl. now right.
Qed.

(** Keys, a touch, other keys, nothing: the other keys are what is
    stored. *)
Lemma stored_codes_are_latest_session :
  match applespi_polls slot_per_index (probed_state blank blank)
          [keyboard_packet 2 [4; 82; 0; 0; 0; 0];
           rx_buffer touch_two_of_six;
           keyboard_packet 0 [7; 0; 0; 0; 0; 0];
           tagged_packet PACKET_NOTHING]
  with
  | Ok st' _ => last_keys_pressed st' = [7; 0; 0; 0; 0; 0]
  | Fault _ => False
  end.
Proof.
  destruct (applespi_polls _ _ _) as [st' calls|i] eqn:E.
  - apply (stored_codes_are_latest slot_per_index _
             (probed_state blank blank) st' calls eq_refl) in E; [exact E|].
    intros p [<-|[<-|[<-|[<-|[]]]]]; reflexivity.
  - vm_compute in E. discriminate E.
Defined.

(** ** The shape of a trace *)

(** The count the first loop of [report_tp_state] ends with is the number
    of active samples, whatever the size of the array it fills. *)
Lemma gather_count (t : touchpad_protocol) (l : list nat) :
  forall (p : list input_mt_pos) (n : nat),
    snd (fold_left (gather_step t) l (p, n))
    = (n + length (List.filter active (map (finger_at t) l)))%nat.
Proof.
  induction l as [|i l IH]; intros p n; cbn [fold_left map List.filter].
  - cbn. lia.
  - rewrite gather_step_eq. destruct (active (finger_at t i)).
    + rewrite IH. cbn [length]. lia.
    + apply IH.
Qed.

Lemma flat_map_length_const {A B} (f : A -> list B) (l : list A) (k : nat) :
  (forall a, length (f a) = k) -> length (flat_map f l) = (k * length l)%nat.
Proof.
  intros H. induction l as [|a l IH]; [cbn; lia|].
  cbn. rewrite length_app, H, IH. lia.
Qed.

(** The calls of the touchpad branch in any driver state. *)
Lemma report_tp_state_calls mt_assign (st : applespi_data)
    (t : touchpad_protocol) :
  exists pos' slots' contacts,
    report_tp_state mt_assign st t
    = Ok (set_touch st pos' slots')
         (input_mt_assign_slots touchpad_input_dev
            (take (length (List.filter active (samples t))) pos') 0
          :: contacts
          ++ [input_mt_sync_frame touchpad_input_dev;
              input_report_key touchpad_input_dev BTN_LEFT (tp_clicked t);
              input_sync touchpad_input_dev])
    /\ length contacts = (9 * length (List.filter active (samples t)))%nat
    /\ Forall (fun c => call_dev c = touchpad_input_dev /\ is_sync c = false)
              contacts.
Proof.
  assert (Hn : snd (gather_positions t (pos st))
               = length (List.filter active (samples t))).
  { unfold gather_positions, samples. now rewrite gather_count. }
  exists (fst (gather_positions t (pos st))).
  exists (store_slots mt_assign (slots st)
            (take (snd (gather_positions t (pos st)))
                  (fst (gather_positions t (pos st))))).
  exists (flat_map
            (fun i =>
               contact_calls touchpad_input_dev
                 (array_get
                    (store_slots mt_assign (slots st)
                       (take (snd (gather_positions t (pos st)))
                             (fst (gather_positions t (pos st))))) i)
                 (pos_at (fst (gather_positions t (pos st))) i)
                 (finger_at t i))
            (seq 0 (snd (gather_positions t (pos st))))).
  split; [|split].
  - unfold report_tp_state. cbn zeta. unfold for_range.
    erewrite for_each_ok by (intros i _; apply report_finger_data_ok).
    rewrite <- Hn. reflexivity.
  - rewrite (flat_map_length_const _ _ 9) by reflexivity.
    now rewrite length_seq, Hn.
  - apply Forall_forall. intros c Hc.
    apply list_elem_of_In in Hc. apply in_flat_map in Hc as (i & _ & Hc).
    cbn in Hc. intuition (subst; auto).
Qed.

Lemma filter_active_read (buf : list byte) :
  List.filter active (tp_fingers (read_touchpad_protocol buf))
  = List.filter (fun f => negb (touch_major f =? 0))
      (tp_fingers (read_touchpad_protocol buf)).
Proof. apply filter_ext_in, active_read. Qed.

(** X7.  A touchpad packet is processed in any driver state without a fault
    and makes exactly [9 * n + 4] calls, [n] being the number of samples
    whose [touch_major] is not zero: one call to have the positions tracked,
    nine per touching finger, and the frame marker, the button and the sync.
    That is 4 calls for an empty pad and never more than 58. *)
Theorem touchpad_call_count mt_assign (st : applespi_data) :
  kbd_packet_type (read_keyboard_protocol (rx_buffer st)) = PACKET_TOUCHPAD ->
  exists st' calls,
    applespi_got_data mt_assign st = Ok st' calls
    /\ length calls
       = (9 * length (List.filter (fun f => negb (touch_major f =? 0)%Z)
                        (tp_fingers (read_touchpad_protocol (rx_buffer st))))
          + 4)%nat
    /\ Nat.le 4 (length calls) /\ Nat.le (length calls) 58.
Proof.
  intros Htag. rewrite (got_data_touchpad _ _ Htag).
  destruct (report_tp_state_calls mt_assign st
              (read_touchpad_protocol (rx_buffer st)))
    as (pos' & slots' & contacts & E & Hlen & _).
  rewrite E. do 2 eexists. split; [reflexivity|].
  rewrite samples_read, filter_active_read in Hlen.
  pose proof (filter_length_le (fun f => negb (touch_major f =? 0))
                (tp_fingers (read_touchpad_protocol (rx_buffer st)))) as Hle.
  assert (H6 : length (tp_fingers (read_touchpad_protocol (rx_buffer st)))
               = 6%nat) by reflexivity.
  cbn [length]. rewrite length_app, Hlen. cbn [length].
  unfold Nat.le. lia.
Qed.

(** Two touching fingers: 22 calls. *)
Lemma touchpad_call_count_two :
  kbd_packet_type (read_keyboard_protocol (rx_buffer touch_two_of_six))
  = PACKET_TOUCHPAD
  /\ exists st' calls,
       applespi_got_data slot_per_index touch_two_of_six = Ok st' calls
       /\ length calls = (9 * 2 + 4)%nat
       /\ Nat.le 4 (length calls) /\ Nat.le (length calls) 58.
Proof.
  split; [reflexivity|].
  exact (touchpad_call_count slot_per_index touch_two_of_six eq_refl).
Defined.

Lemma keyboard_front (last keys : list Z) (modifiers : Z) :
  Forall (fun c => call_dev c = poll_dev_input /\ is_sync c = false)
    (map release
       (List.filter (fun c => negb (still_pressed c keys)) (six last))
     ++ trace_of (report_pressed keys)
     ++ trace_of (report_modifiers modifiers)).
Proof.
  rewrite report_pressed_ok, report_modifiers_ok. cbn [trace_of].
  rewrite !Forall_app. repeat split; apply Forall_forall; intros c Hc;
    apply list_elem_of_In, in_map_iff in Hc as (a & <- & _); auto.
Qed.

(** X8.  Whatever a packet makes the driver call is called on one device:
    the keyboard device for a keyboard packet, the touchpad device for a
    touchpad packet.  The calls of such a packet end with the [input_sync] of
    that device, and it is their only [input_sync]; a packet of any other tag
    makes no call at all. *)
Theorem calls_stay_on_one_device mt_assign (st st' : applespi_data) calls :
  applespi_got_data mt_assign st = Ok st' calls ->
  Forall (fun c =>
            call_dev c
            = device_of_tag
                (kbd_packet_type (read_keyboard_protocol (rx_buffer st))))
         calls
  /\ ((kbd_packet_type (read_keyboard_protocol (rx_buffer st))
       = PACKET_KEYBOARD
       \/ kbd_packet_type (read_keyboard_protocol (rx_buffer st))
          = PACKET_TOUCHPAD) ->
      exists front,
        calls
        = front
          ++ [input_sync
                (device_of_tag
                   (kbd_packet_type (read_keyboard_protocol (rx_buffer st))))]
        /\ Forall (fun c => is_sync c = false) front)
  /\ (kbd_packet_type (read_keyboard_protocol (rx_buffer st))
      <> PACKET_KEYBOARD ->
      kbd_packet_type (read_keyboard_protocol (rx_buffer st))
      <> PACKET_TOUCHPAD ->
      calls = []).
Proof.
  destruct (Z.eq_dec (kbd_packet_type (read_keyboard_protocol (rx_buffer st)))
                     PACKET_KEYBOARD) as [Hk|Hk].
  { rewrite (got_data_keyboard _ _ Hk), Hk.
    destruct (release_reads_in_table (last_keys_pressed st)
                (kbd_keys_pressed (read_keyboard_protocol (rx_buffer st))))
      eqn:Hb.
    2:{ destruct (got_keyboard_fault _ _ Hb) as (c & -> & _). discriminate. }
    rewrite (got_keyboard_ok _ _ Hb), (report_released_ok _ _ Hb).
    cbn [trace_of]. intros [= _ <-].
    pose proof (keyboard_front (last_keys_pressed st)
                  (kbd_keys_pressed (read_keyboard_protocol (rx_buffer st)))
                  (kbd_modifiers (read_keyboard_protocol (rx_buffer st))))
      as Hf.
    rewrite !app_assoc in *. split; [|split].
    - apply Forall_app. split.
      + eapply Forall_impl; [exact Hf|]. now intros c [H _].
      + repeat constructor.
    - intros _. eexists. split; [reflexivity|].
      eapply Forall_impl; [exact Hf|]. now intros c [_ H].
    - intros H. contradiction. }
  destruct (Z.eq_dec (kbd_packet_type (read_keyboard_protocol (rx_buffer st)))
                     PACKET_TOUCHPAD) as [Ht|Ht].
  { rewrite (got_data_touchpad _ _ Ht), Ht.
    destruct (report_tp_state_calls mt_assign st
                (read_touchpad_protocol (rx_buffer st)))
      as (pos' & slots' & contacts & E & _ & Hc).
    rewrite E. intros [= _ <-]. split; [|split].
    - constructor; [reflexivity|]. apply Forall_app. split.
      + eapply Forall_impl; [exact Hc|]. now intros c [H _].
      + repeat constructor.
    - intros _.
      exists (input_mt_assign_slots touchpad_input_dev
                (take (length (List.filter active
                                 (samples (read_touchpad_protocol
                                             (rx_buffer st))))) pos') 0
              :: contacts
              ++ [input_mt_sync_frame touchpad_input_dev;
                  input_report_key touchpad_input_dev BTN_LEFT
                    (tp_clicked (read_touchpad_protocol (rx_buffer st)))]).
      split.
      + cbn [app]. rewrite <- app_assoc. reflexivity.
      + constructor; [reflexivity|]. apply Forall_app. split.
        * eapply Forall_impl; [exact Hc|]. now intros c [_ H].
        * repeat constructor.
    - intros _ H. contradiction. }
  rewrite (got_data_other _ _ Hk Ht). intros [= _ <-].
  split; [constructor|]. split; [|reflexivity].
  intros [H|H]; contradiction.
Qed.

(** The packet with codes 4 and 7: every call on the keyboard device, the
    sync last. *)
Lemma calls_stay_on_one_device_keys :
  exists st' calls,
    applespi_got_data slot_per_index adds_seven = Ok st' calls
    /\ Forall (fun c => call_dev c = poll_dev_input) calls
    /\ exists front,
         calls = front ++ [input_sync poll_dev_input]
         /\ Forall (fun c => is_sync c = false) front.
Proof.
  destruct (applespi_got_data slot_per_index adds_seven) as [st' calls|i]
    eqn:E.
  - exists st', calls. split; [reflexivity|].
    destruct (calls_stay_on_one_device slot_per_index adds_seven st' calls E)
      as (H1 & H2 & _).
    split; [exact H1|]. apply H2. left. reflexivity.
  - vm_compute in E. discriminate E.
Defined.

(** ** What a touchpad packet reports *)

(** X9.  The calls of a touchpad packet in general.  The positions of the
    active samples, in slot order, are handed to the input core.  Then contact
    update number [i] is made with the slot the input core answered for
    position [i], with the position of the [i]-th active sample, and with the
    touch axes, tool axes and orientation of the sample in slot [i] of the
    packet, active or not.  The answered slots are left in the leading entries
    of the driver's slot array; its other entries are not written. *)
Theorem contact_pairs_position_with_slot mt_assign (st : applespi_data) :
  kbd_packet_type (read_keyboard_protocol (rx_buffer st)) = PACKET_TOUCHPAD ->
  length (pos st) = MAX_FINGERS ->
  exists st',
    applespi_got_data mt_assign st
    = Ok st'
        (input_mt_assign_slots touchpad_input_dev
           (map finger_pos
              (List.filter active
                 (tp_fingers (read_touchpad_protocol (rx_buffer st))))) 0
         :: flat_map
              (fun i =>
                 contact_calls touchpad_input_dev
                   (mt_assign
                      (map finger_pos
                         (List.filter active
                            (tp_fingers
                               (read_touchpad_protocol (rx_buffer st))))) i)
                   (finger_pos
                      (nth i (List.filter active
                                (tp_fingers
                                   (read_touchpad_protocol (rx_buffer st))))
                           zero_finger))
                   (nth i (tp_fingers (read_touchpad_protocol (rx_buffer st)))
                        zero_finger))
              (seq 0 (length
                        (List.filter active
                           (tp_fingers
                              (read_touchpad_protocol (rx_buffer st))))))
         ++ [input_mt_sync_frame touchpad_input_dev;
             input_report_key touchpad_input_dev BTN_LEFT
               (tp_clicked (read_touchpad_protocol (rx_buffer st)));
             input_sync touchpad_input_dev])
    /\ take (length (List.filter active
                       (tp_fingers (read_touchpad_protocol (rx_buffer st)))))
            (slots st')
       = map (mt_assign
                (map finger_pos
                   (List.filter active
                      (tp_fingers (read_touchpad_protocol (rx_buffer st))))))
             (seq 0 (length
                       (List.filter active
                          (tp_fingers
                             (read_touchpad_protocol (rx_buffer st))))))
    /\ drop (length (List.filter active
                       (tp_fingers (read_touchpad_protocol (rx_buffer st)))))
            (slots st')
       = drop (length (List.filter active
                         (tp_fingers (read_touchpad_protocol (rx_buffer st)))))
              (slots st).
Proof.
  intros Htag Hl.
  rewrite (got_data_touchpad _ _ Htag), (report_tp_state_ok _ _ _ Hl).
  eexists. split; [|split].
  - f_equal. unfold touch_calls, tracked. rewrite samples_read.
    set (fs := tp_fingers (read_touchpad_protocol (rx_buffer st))).
    rewrite length_map. f_equal. f_equal.
    apply flat_map_ext_in. intros i Hi. apply in_seq in Hi.
    unfold finger_at. fold fs. f_equal.
    unfold pos_at. rewrite (nth_indep _ _ (finger_pos zero_finger)).
    + apply map_nth.
    + rewrite length_map. lia.
  - cbn [slots set_touch]. unfold store_slots, tracked.
    rewrite samples_read, length_map.
    set (n := length _).
    replace n with (length (map (mt_assign
                                   (map finger_pos
                                      (List.filter active
                                         (tp_fingers
                                            (read_touchpad_protocol
                                               (rx_buffer st))))))
                               (seq 0 n))) at 1
      by now rewrite length_map, length_seq.
    apply take_app_length.
  - cbn [slots set_touch]. unfold store_slots, tracked.
    rewrite samples_read, length_map.
    set (n := length _).
    replace n with (length (map (mt_assign
                                   (map finger_pos
                                      (List.filter active
                                         (tp_fingers
                                            (read_touchpad_protocol
                                               (rx_buffer st))))))
                               (seq 0 n))) at 1
      by now rewrite length_map, length_seq.
    apply drop_app_length.
Qed.

(** Fingers in the second and fifth slot: the first update pairs the
    position of the second slot with the axes of the empty first slot, the
    second update the position of the fifth slot with the axes of the second
    slot. *)
Lemma contact_pairs_position_with_slot_two :
  kbd_packet_type (read_keyboard_protocol (rx_buffer touch_two_of_six))
  = PACKET_TOUCHPAD
  /\ length (pos touch_two_of_six) = MAX_FINGERS
  /\ exists st',
       applespi_got_data slot_per_index touch_two_of_six
       = Ok st'
           (input_mt_assign_slots touchpad_input_dev
              [finger_pos (sample 100 200); finger_pos (sample 65436 300)] 0
            :: (contact_calls touchpad_input_dev 0
                  (finger_pos (sample 100 200)) zero_finger
                ++ contact_calls touchpad_input_dev 1
                     (finger_pos (sample 65436 300)) (sample 100 200)
                ++ [])
            ++ [input_mt_sync_frame touchpad_input_dev;
                input_report_key touchpad_input_dev BTN_LEFT 1;
                input_sync touchpad_input_dev])
       /\ take 2 (slots st') = [0; 1]
       /\ drop 2 (slots st') = [0; 0; 0; 0].
Proof.
  do 2 (split; [reflexivity|]).
  exact (contact_pairs_position_with_slot slot_per_index touch_two_of_six
           eq_refl eq_refl).
Defined.

(** ** Reported values against the declared ranges *)

Lemma to_s16_id (v : Z) : -32768 <= v <= 32767 -> to_s16 v = v.
Proof.
  intros Hv. unfold to_s16, raw2int.
  destruct (Z_lt_le_dec v 0) as [Hn|Hn].
  - replace (v mod 65536) with (v + 65536).
    + destruct (32768 <=? v + 65536) eqn:E;
        [lia|apply Z.leb_gt in E; lia].
    + symmetry. replace (v + 65536) with (v + 1 * 65536) by lia.
      rewrite <- (Z.mod_add v 1 65536) by lia. apply Z.mod_small. lia.
  - rewrite Z.mod_small by lia.
    destruct (32768 <=? v) eqn:E; [apply Z.leb_le in E; lia|reflexivity].
Qed.

Lemma to_s16_wrap (v : Z) : 32768 <= v < 65536 -> to_s16 v = v - 65536.
Proof.
  intros Hv. unfold to_s16, raw2int. rewrite Z.mod_small by lia.
  destruct (32768 <=? v) eqn:E; [reflexivity|apply Z.leb_gt in E; lia].
Qed.

Lemma raw2int_range (v : Z) :
  0 <= v < 65536 -> -32768 <= raw2int v <= 32767.
Proof.
  intros Hv. unfold raw2int.
  destruct (32768 <=? v) eqn:E;
    [apply Z.leb_le in E|apply Z.leb_gt in E]; lia.
Qed.

Lemma declared_range_spec (axis : abs_axis) (v : Z) :
  in_declared_range probe_abs_params axis v = true
  <-> match axis with
      | ABS_MT_TOUCH_MAJOR | ABS_MT_TOUCH_MINOR
      | ABS_MT_WIDTH_MAJOR | ABS_MT_WIDTH_MINOR => 0 <= v <= 2048
      | ABS_MT_ORIENTATION =>
          - MAX_FINGER_ORIENTATION <= v <= MAX_FINGER_ORIENTATION
      | ABS_MT_POSITION_X => X_MIN <= v <= X_MAX
      | ABS_MT_POSITION_Y => Y_MIN <= v <= Y_MAX
      | ABS_MT_PRESSURE => False
      end.
Proof.
  unfold in_declared_range, probe_abs_params.
  destruct axis; cbn [existsb axis_eqb andb orb];
    rewrite ?orb_false_r, ?andb_true_iff, ?Z.leb_le;
    try tauto; split; try discriminate; tauto.
Qed.

(** X10.  The driver does not clamp.  One [report_finger_data], made with
    the position of a sample [g] and the axes of a sample [f] of 16-bit
    fields, stays inside the ranges [applespi_probe] declared for the seven
    axes exactly when the raw fields do: the four touch and tool axes of [f]
    read between 0 and 1024, its orientation reads non-negative, and the
    position of [g] reads inside [X_MIN, X_MAX] and [Y_MIN, Y_MAX]. *)
Theorem reports_within_declared_ranges (slot : Z) (g f : tp_finger) :
  0 <= abs_x g < 65536 ->
  0 <= abs_y g < 65536 ->
  0 <= orientation f < 65536 ->
  (forallb within_declared
     (trace_of (report_finger_data touchpad_input_dev slot (finger_pos g) f))
   = true
   <-> (0 <= raw2int (touch_major f) <= 1024
        /\ 0 <= raw2int (touch_minor f) <= 1024
        /\ 0 <= raw2int (tool_major f) <= 1024
        /\ 0 <= raw2int (tool_minor f) <= 1024
        /\ 0 <= raw2int (orientation f)
        /\ X_MIN <= raw2int (abs_x g) <= X_MAX
        /\ Y_MIN <= raw2int (abs_y g) <= Y_MAX)).
Proof.
  intros Hx Hy Ho.
  pose proof (raw2int_range _ Hx) as Rx.
  pose proof (raw2int_range _ Hy) as Ry.
  pose proof (raw2int_range _ Ho) as Ro.
  rewrite report_finger_data_ok.
  cbn [trace_of contact_calls forallb within_declared andb x y finger_pos].
  rewrite !andb_true_iff, !declared_range_spec, !Z.shiftl_mul_pow2 by lia.
  rewrite (to_s16_id (raw2int (abs_x g))) by lia.
  unfold MAX_FINGER_ORIENTATION, X_MIN, X_MAX, Y_MIN, Y_MAX in *.
  destruct (Z_lt_le_dec (raw2int (abs_y g)) (-26167)) as [Hw|Hw].
  - rewrite to_s16_wrap by lia. lia.
  - rewrite to_s16_id by lia. lia.
Qed.

(** The touching finger of the examples is inside every range. *)
Lemma reports_within_declared_ranges_sample :
  forallb within_declared
    (trace_of (report_finger_data touchpad_input_dev 0
                 (finger_pos (sample 100 200)) (sample 100 200)))
  = true
  /\ (0 <= raw2int 50 <= 1024 /\ 0 <= raw2int 40 <= 1024
      /\ 0 <= raw2int 60 <= 1024 /\ 0 <= raw2int 55 <= 1024
      /\ 0 <= raw2int 1000
      /\ X_MIN <= raw2int 100 <= X_MAX /\ Y_MIN <= raw2int 200 <= Y_MAX).
Proof.
  split; [reflexivity|].
  apply (reports_within_declared_ranges 0 (sample 100 200) (sample 100 200));
    [cbn; lia|cbn; lia|cbn; lia|reflexivity].
Defined.

(** ** Reported keys against the announced keys *)

Lemma table_entry_announced (t : list keycode) (i : nat) :
  (i < length t)%nat ->
  nth i t KEY_RESERVED = KEY_RESERVED
  \/ In (input_set_capability poll_dev_input EV_KEY (nth i t KEY_RESERVED))
        (set_table_capabilities t).
Proof.
  intros Hi. destruct (is_reserved (nth i t KEY_RESERVED)) eqn:E.
  - left. destruct (nth i t KEY_RESERVED); try discriminate. reflexivity.
  - right. unfold set_table_capabilities. apply in_flat_map.
    exists i. split; [apply in_seq; lia|]. rewrite E. now left.
Qed.

Lemma keycode_of_announced (c : Z) :
  in_table c = true ->
  keycode_of c = KEY_RESERVED
  \/ key_declared probe_key_capabilities (keycode_of c).
Proof.
  intros H. apply in_table_spec in H. unfold sizeof in H.
  destruct (table_entry_announced applespi_scancodes (Z.to_nat c)) as [E|E];
    [lia|now left|].
  right. unfold key_declared, probe_key_capabilities.
  apply in_or_app. now left.
Qed.

Lemma keyboard_calls_announced (last keys : list Z) (modifiers : Z) :
  release_reads_in_table last keys = true ->
  Forall key_report_announced
    (trace_of (report_released last keys)
     ++ trace_of (report_pressed keys)
     ++ trace_of (report_modifiers modifiers)
     ++ [input_sync poll_dev_input]).
Proof.
  intros Hb. rewrite (report_released_ok _ _ Hb).
  rewrite report_pressed_ok, report_modifiers_ok. cbn [trace_of].
  rewrite !Forall_app. repeat split.
  - apply Forall_forall. intros c Hc.
    apply list_elem_of_In, in_map_iff in Hc as (k & <- & Hin).
    apply filter_In in Hin as (Hin & Hs).
    unfold release_reads_in_table in Hb. rewrite forallb_forall in Hb.
    specialize (Hb k Hin). apply negb_true_iff in Hs. rewrite Hs in Hb.
    unfold key_report_announced, release. now apply keycode_of_announced.
  - apply Forall_forall. intros c Hc.
    apply list_elem_of_In, in_map_iff in Hc as (k & <- & Hin).
    apply filter_In in Hin as (_ & Hs).
    apply andb_true_iff in Hs as (H1 & H2).
    apply Z.ltb_lt in H1, H2.
    unfold key_report_announced, press.
    apply keycode_of_announced. apply in_table_spec. lia.
  - apply Forall_forall. intros c Hc.
    apply list_elem_of_In, in_map_iff in Hc as (i & <- & Hin).
    apply in_seq in Hin. unfold key_report_announced.
    destruct (table_entry_announced applespi_controlcodes i) as [E|E];
      [change (length applespi_controlcodes) with 8%nat; lia|now left|].
    right. unfold key_declared, probe_key_capabilities.
    apply in_or_app. now right.
  - repeat constructor.
Qed.

(** X11.  Every key the keyboard branch reports was announced when the
    device was set up: each [input_report_key] of a keyboard packet that is
    processed names a key for which one of the two capability loops of
    [applespi_probe] called [input_set_capability], or it names code 0, which
    those loops skip. *)
Theorem key_reports_are_announced mt_assign (st st' : applespi_data) calls :
  kbd_packet_type (read_keyboard_protocol (rx_buffer st)) = PACKET_KEYBOARD ->
  applespi_got_data mt_assign st = Ok st' calls ->
  Forall key_report_announced calls.
Proof.
  intros Hk. rewrite (got_data_keyboard _ _ Hk).
  destruct (release_reads_in_table (last_keys_pressed st)
              (kbd_keys_pressed (read_keyboard_protocol (rx_buffer st))))
    eqn:Hb.
  2:{ destruct (got_keyboard_fault _ _ Hb) as (c & -> & _). discriminate. }
  rewrite (got_keyboard_ok _ _ Hb). intros E.
  assert (Hcalls : calls = trace_of (Ok st' calls)) by reflexivity.
  rewrite <- E in Hcalls. cbn [trace_of] in Hcalls. subst calls. clear E.
  apply keyboard_calls_announced. exact Hb.
Qed.

(** The packet with codes 4 and 7. *)
Lemma key_reports_are_announced_keys :
  match applespi_got_data slot_per_index adds_seven with
  | Ok _ calls => Forall key_report_announced calls
  | Fault _ => False
  end.
Proof.
  destruct (applespi_got_data slot_per_index adds_seven) as [st' calls|i]
    eqn:E.
  - exact (key_reports_are_announced slot_per_index adds_seven st' calls
             eq_refl E).
  - vm_compute in E. discriminate E.
Defined.

(** ** The bytes a packet is read at *)

(** X12.  Of a keyboard packet only the tag, the modifier byte and the six
    key bytes are looked at: two keyboard packets that agree in these are
    processed alike from equal stored codes, whatever their counter,
    function-key byte, checksum and remaining bytes are. *)
Theorem keyboard_reads_three_fields mt_assign (st1 st2 : applespi_data) :
  last_keys_pressed st1 = last_keys_pressed st2 ->
  kbd_packet_type (read_keyboard_protocol (rx_buffer st1)) = PACKET_KEYBOARD ->
  kbd_packet_type (read_keyboard_protocol (rx_buffer st2)) = PACKET_KEYBOARD ->
  u8_at (rx_buffer st1) 17 = u8_at (rx_buffer st2) 17 ->
  (forall i, (i < 6)%nat ->
             u8_at (rx_buffer st1) (19 + i) = u8_at (rx_buffer st2) (19 + i)) ->
  match applespi_got_data mt_assign st1, applespi_got_data mt_assign st2 with
  | Ok a calls1, Ok b calls2 =>
      calls1 = calls2 /\ last_keys_pressed a = last_keys_pressed b
  | Fault i, Fault j => i = j
  | _, _ => False
  end.
Proof.
  intros Hl H1 H2 Hm Hk.
  rewrite (got_data_keyboard _ _ H1), (got_data_keyboard _ _ H2).
  unfold got_keyboard.
  assert (Ek : kbd_keys_pressed (read_keyboard_protocol (rx_buffer st1))
               = kbd_keys_pressed (read_keyboard_protocol (rx_buffer st2))).
  { cbn [kbd_keys_pressed read_keyboard_protocol].
    apply map_ext_in. intros i Hi. apply in_seq in Hi. apply Hk. lia. }
  assert (Em : kbd_modifiers (read_keyboard_protocol (rx_buffer st1))
               = kbd_modifiers (read_keyboard_protocol (rx_buffer st2)))
    by exact Hm.
  rewrite Ek, Em, Hl.
  destruct (report_released _ _) as [[] calls|i]; [|reflexivity].
  rewrite report_pressed_ok, report_modifiers_ok. cbn. auto.
Qed.

(** The packet with codes 4 and 7, and the same packet with another
    counter, the function key down and another checksum. *)
Lemma keyboard_reads_three_fields_example :
  rx_buffer (with_last_keys [4; 0; 0; 0; 0; 0] adds_seven_other_bytes)
  <> rx_buffer adds_seven
  /\ match applespi_got_data slot_per_index adds_seven,
           applespi_got_data slot_per_index
             (with_last_keys [4; 0; 0; 0; 0; 0] adds_seven_other_bytes)
     with
     | Ok a calls1, Ok b calls2 =>
         calls1 = calls2 /\ last_keys_pressed a = last_keys_pressed b
     | Fault i, Fault j => i = j
     | _, _ => False
     end.
Proof.
  split; [discriminate|].
  apply (keyboard_reads_three_fields slot_per_index adds_seven
           (with_last_keys [4; 0; 0; 0; 0; 0] adds_seven_other_bytes));
    try reflexivity.
  intros i Hi. do 6 (destruct i as [|i]; [reflexivity|]). lia.
Defined.

Lemma same_reported_active (f g : tp_finger) :
  same_reported f g -> active f = active g /\ finger_pos f = finger_pos g.
Proof.
  intros (Hx & Hy & _ & _ & _ & Ht & _).
  unfold active, finger_pos. now rewrite Hx, Hy, Ht.
Qed.

Lemma same_reported_tracked (l1 l2 : list tp_finger) :
  Forall2 same_reported l1 l2 ->
  map finger_pos (List.filter active l1)
  = map finger_pos (List.filter active l2).
Proof.
  induction 1 as [|f g l1 l2 Hfg _ IH]; [reflexivity|].
  destruct (same_reported_active f g Hfg) as (Ha & Hp).
  cbn [List.filter]. rewrite Ha. destruct (active g); cbn [map].
  - now rewrite Hp, IH.
  - exact IH.
Qed.

Lemma same_reported_nth (l1 l2 : list tp_finger) (i : nat) :
  Forall2 same_reported l1 l2 ->
  same_reported (nth i l1 zero_finger) (nth i l2 zero_finger).
Proof.
  intros H. revert i.
  induction H as [|f g l1 l2 Hfg _ IH]; intros i.
  - destruct i; cbn; unfold same_reported; auto 10.
  - destruct i; [exact Hfg|apply IH].
Qed.

(** X13.  Of a touchpad packet only the tag, the click byte and, of each of
    the six samples, position, tool axes, touch axes and orientation are
    looked at: two touchpad packets that agree in these make the driver issue
    the same calls, whatever their finger counts, their counter and the
    origin, relative motion, pressure and multi fields of their samples
    are. *)
Theorem touchpad_reads_reported_fields mt_assign (st1 st2 : applespi_data) :
  kbd_packet_type (read_keyboard_protocol (rx_buffer st1)) = PACKET_TOUCHPAD ->
  kbd_packet_type (read_keyboard_protocol (rx_buffer st2)) = PACKET_TOUCHPAD ->
  length (pos st1) = MAX_FINGERS ->
  length (pos st2) = MAX_FINGERS ->
  u8_at (rx_buffer st1) 17 = u8_at (rx_buffer st2) 17 ->
  Forall2 same_reported
    (tp_fingers (read_touchpad_protocol (rx_buffer st1)))
    (tp_fingers (read_touchpad_protocol (rx_buffer st2))) ->
  exists a b calls,
    applespi_got_data mt_assign st1 = Ok a calls
    /\ applespi_got_data mt_assign st2 = Ok b calls.
Proof.
  intros H1 H2 Hp1 Hp2 Hc Hf.
  rewrite (got_data_touchpad _ _ H1), (got_data_touchpad _ _ H2).
  rewrite !report_tp_state_ok by assumption.
  do 3 eexists. split; [reflexivity|]. f_equal.
  unfold touch_calls, tracked. rewrite !samples_read.
  rewrite <- (same_reported_tracked _ _ Hf).
  change (tp_clicked (read_touchpad_protocol (rx_buffer st2)))
    with (u8_at (rx_buffer st2) 17).
  rewrite <- Hc. f_equal. f_equal.
  apply flat_map_ext_in. intros i _.
  pose proof (same_reported_nth _ _ i Hf) as (_ & _ & E1 & E2 & E3 & E4 & E5).
  unfold contact_calls, finger_at. now rewrite E1, E2, E3, E4, E5.
Qed.

(** The packet with two touching fingers, and the same packet with finger
    counts of 2 and other pressure, origin, relative motion and multi
    values. *)
Lemma touchpad_reads_reported_fields_example :
  rx_buffer touch_two_of_six
  <> rx_buffer (with_last_keys [0; 0; 0; 0; 0; 0] touch_two_of_six_other_bytes)
  /\ exists a b calls,
       applespi_got_data slot_per_index touch_two_of_six = Ok a calls
       /\ applespi_got_data slot_per_index
            (with_last_keys [0; 0; 0; 0; 0; 0] touch_two_of_six_other_bytes)
          = Ok b calls.
Proof.
  split; [discriminate|].
  apply (touchpad_reads_reported_fields slot_per_index touch_two_of_six
           (with_last_keys [0; 0; 0; 0; 0; 0] touch_two_of_six_other_bytes));
    try reflexivity.
  vm_compute. repeat constructor.
Defined.

(** ** Session start *)

Lemma write_and_response_bus (st : applespi_data) (replies : list (list byte)) :
  on_the_bus (applespi_sync_write_and_response st replies)
  = [Transmit (take (Z.to_nat APPLESPI_PACKET_SIZE) (tx_buffer st));
     Receive 4; Receive (Z.to_nat APPLESPI_PACKET_SIZE)]
  /\ tx_buffer (after (applespi_sync_write_and_response st replies))
     = tx_buffer st
  /\ last_keys_pressed (after (applespi_sync_write_and_response st replies))
     = last_keys_pressed st
  /\ pos (after (applespi_sync_write_and_response st replies)) = pos st
  /\ slots (after (applespi_sync_write_and_response st replies)) = slots st.
Proof. repeat split. Qed.

Lemma last_cons {A} (l : list A) (a d : A) :
  List.last (a :: l) d = List.last l a.
Proof.
  revert a d. induction l as [|b l IH]; intros a d; [reflexivity|].
  change (List.last (a :: b :: l) d) with (List.last (b :: l) d).
  now rewrite !IH.
Qed.

Lemma open_loop_spec (commands : list (list byte)) :
  Forall (fun c => length c = Z.to_nat APPLESPI_PACKET_SIZE) commands ->
  forall (st : applespi_data) (replies : list (list (list byte))),
    length (tx_buffer st) = Z.to_nat APPLESPI_PACKET_SIZE ->
    snd (open_loop st commands replies)
    = map (fun c => [Transmit c; Receive 4;
                     Receive (Z.to_nat APPLESPI_PACKET_SIZE)])
          commands
    /\ tx_buffer (fst (open_loop st commands replies))
       = List.last commands (tx_buffer st)
    /\ last_keys_pressed (fst (open_loop st commands replies))
       = last_keys_pressed st
    /\ pos (fst (open_loop st commands replies)) = pos st
    /\ slots (fst (open_loop st commands replies)) = slots st.
Proof.
  induction 1 as [|c cs Hc _ IH]; intros st replies Htx.
  - cbn. auto.
  - cbn [open_loop fst snd map].
    assert (Hm : tx_buffer (memcpy_tx_buffer st c) = c).
    { unfold memcpy_tx_buffer. cbn [tx_buffer set_buffer].
      now rewrite take_ge, drop_ge, app_nil_r by lia. }
    destruct (write_and_response_bus (memcpy_tx_buffer st c) (hd [] replies))
      as (Hb & Ht & Hk & Hp & Hs).
    rewrite Hm in Hb, Ht. rewrite (take_ge c) in Hb by lia.
    destruct (IH (after (applespi_sync_write_and_response
                           (memcpy_tx_buffer st c) (hd [] replies)))
                 (tl replies)) as (I1 & I2 & I3 & I4 & I5).
    { rewrite Ht. exact Hc. }
    rewrite I1, I2, I3, I4, I5, Hb, Ht, Hk, Hp, Hs, last_cons.
    repeat split.
Qed.

(** X14.  Opening the device sends the fourteen commands of
    [applespi_init_commands], byte for byte and in table order, each in one
    exchange of a 256-byte transmit, a 4-byte receive and a 256-byte receive.
    Nothing the device answers changes what is sent next.  Afterwards the
    transmit buffer holds the last command, and the stored key codes and the
    touchpad scratch arrays are as before. *)
Theorem open_sends_the_commands (st : applespi_data)
    (replies : list (list (list byte))) :
  length (tx_buffer st) = Z.to_nat APPLESPI_PACKET_SIZE ->
  snd (applespi_open st replies)
  = map (fun c => [Transmit c; Receive 4;
                   Receive (Z.to_nat APPLESPI_PACKET_SIZE)])
        applespi_init_commands
  /\ length (snd (applespi_open st replies)) = 14%nat
  /\ tx_buffer (fst (applespi_open st replies))
     = List.last applespi_init_commands []
  /\ last_keys_pressed (fst (applespi_open st replies)) = last_keys_pressed st
  /\ pos (fst (applespi_open st replies)) = pos st
  /\ slots (fst (applespi_open st replies)) = slots st.
Proof.
  intros Htx. unfold applespi_open.
  destruct (open_loop_spec applespi_init_commands) with (st := st)
    (replies := replies) as (H1 & H2 & H3 & H4 & H5).
  - repeat constructor.
  - exact Htx.
  - rewrite H1, H2, H3, H4, H5. repeat split.
Qed.

(** Opened while codes 4 and 5 are stored, with a device that answers
    nothing. *)
Lemma open_sends_the_commands_example :
  length (tx_buffer drops_two) = Z.to_nat APPLESPI_PACKET_SIZE
  /\ snd (applespi_open drops_two [])
     = map (fun c => [Transmit c; Receive 4; Receive 256])
           applespi_init_commands
  /\ length (snd (applespi_open drops_two [])) = 14%nat
  /\ tx_buffer (fst (applespi_open drops_two []))
     = [x40; xd0; x00; x00; x00; x00; x0a; x00; x20; x10; x02;
        x00; x00; x04; x00; x00; x53; xfa; x00; x00; x00; x00]
       ++ pad 232 ++ [xd0; x62]
  /\ last_keys_pressed (fst (applespi_open drops_two [])) = [4; 5; 0; 0; 0; 0]
  /\ pos (fst (applespi_open drops_two [])) = pos drops_two
  /\ slots (fst (applespi_open drops_two [])) = slots drops_two.
Proof.
  split; [reflexivity|].
  exact (open_sends_the_commands drops_two [] eq_refl).
Defined.

(** ** The first keyboard packet *)

(** X15.  From the zeroed driver data every keyboard packet is processed,
    whatever codes it holds.  Its release loop finds six stored zeros: when
    the packet has an empty slot nothing is released, and when all six slots
    are taken the loop reports six releases of code 0, [KEY_RESERVED]. *)
Theorem first_keyboard_packet mt_assign (tx rx : list byte) :
  kbd_packet_type (read_keyboard_protocol rx) = PACKET_KEYBOARD ->
  applespi_got_data mt_assign (probed_state tx rx)
  = Ok (set_last_keys_pressed (probed_state tx rx)
          (kbd_keys_pressed (read_keyboard_protocol rx)))
       ((if existsb (Z.eqb 0) (kbd_keys_pressed (read_keyboard_protocol rx))
         then []
         else repeat (input_report_key poll_dev_input KEY_RESERVED 0) 6)
        ++ trace_of (report_pressed
                       (kbd_keys_pressed (read_keyboard_protocol rx)))
        ++ trace_of (report_modifiers
                       (kbd_modifiers (read_keyboard_protocol rx)))
        ++ [input_sync poll_dev_input]).
Proof.
  intros Htag.
  assert (Hb : release_reads_in_table
                 (last_keys_pressed (probed_state tx rx))
                 (kbd_keys_pressed (read_keyboard_protocol rx)) = true)
    by now apply all_in_table_reads.
  rewrite got_data_keyboard by exact Htag.
  cbn [rx_buffer probed_state] in *.
  rewrite (got_keyboard_ok _ _ Hb), (report_released_ok _ _ Hb).
  cbn [trace_of]. f_equal. f_equal.
  cbn [last_keys_pressed probed_state].
  change (six (repeat 0 MAX_ROLLOVER)) with [0; 0; 0; 0; 0; 0].
  cbn [List.filter]. rewrite still_pressed_mem, six_keys_pressed.
  now destruct (existsb (Z.eqb 0) _).
Qed.

(** A first packet with all six slots taken, one of them by code 200. *)
Lemma first_keyboard_packet_full :
  kbd_packet_type
    (read_keyboard_protocol (keyboard_packet 0 [4; 5; 6; 200; 8; 9]))
  = PACKET_KEYBOARD
  /\ applespi_got_data slot_per_index
       (probed_state blank (keyboard_packet 0 [4; 5; 6; 200; 8; 9]))
     = Ok (set_last_keys_pressed
             (probed_state blank (keyboard_packet 0 [4; 5; 6; 200; 8; 9]))
             [4; 5; 6; 200; 8; 9])
          (repeat (input_report_key poll_dev_input KEY_RESERVED 0) 6
           ++ [input_report_key poll_dev_input KEY_A 1;
               input_report_key poll_dev_input KEY_B 1;
               input_report_key poll_dev_input KEY_C 1;
               input_report_key poll_dev_input KEY_E 1;
               input_report_key poll_dev_input KEY_F 1]
           ++ idle_modifiers ++ [input_sync poll_dev_input]).
Proof.
  split; [reflexivity|].
  exact (first_keyboard_packet slot_per_index blank
           (keyboard_packet 0 [4; 5; 6; 200; 8; 9]) eq_refl).
Defined.
